(** * tstack-blog-v1-rc: scaffold context, route factory and BaseService

    A shallow embedding of
    - [buildContext] and the file-rendering block of
      docs/CLI_SCAFFOLD_GUIDE.md ("CLI Implementation Logic"),
    - the route template and the middleware application logic of
      [BaseRouteFactory.createCrudRoutes]
      (docs/BASE_ABSTRACTIONS_ARCHITECTURE.md),
    - the controller template of the guide and the declarative
      authorization of [BaseController],
    - [BaseService] (src/shared/services/base.service.ts) with the
      article and user services built on it,
    followed by the properties established about them. *)

From Stdlib Require Import List String Ascii ZArith Bool Lia Permutation.
Import ListNotations.

Set Implicit Arguments.

Local Open Scope string_scope.
Local Open Scope list_scope.

(* ================================================================== *)
(** * JavaScript and Handlebars primitives *)
(* ================================================================== *)

Module JS.

(** Truthiness of a possibly-undefined string: [undefined] and the
    empty string are falsy. *)
Definition truthy (v : option string) : bool :=
  match v with
  | None => false
  | Some s => negb (s =? EmptyString)
  end.

(** [a || b] on possibly-undefined strings. *)
Definition or_str (a b : option string) : option string :=
  if truthy a then a else b.

(** [a || d] where [a] is a possibly-undefined array (every array,
    also the empty one, is truthy) and [d] is an array. *)
Definition or_array (A : Type) (a : option (list A)) (d : list A)
  : list A :=
  match a with
  | Some l => l
  | None => d
  end.

(** [v ? f(v) : d] on a possibly-undefined string. *)
Definition cond_str (A : Type) (v : option string) (f : string -> A)
  (d : A) : A :=
  match v with
  | Some s => if negb (s =? EmptyString) then f s else d
  | None => d
  end.

(** [!!a] for a possibly-undefined array. *)
Definition defined (A : Type) (a : option A) : bool :=
  match a with
  | Some _ => true
  | None => false
  end.

(** [Array.prototype.includes] on an array of strings. *)
Definition includes (l : list string) (x : string) : bool :=
  existsb (String.eqb x) l.

(** [String.prototype.split] with a one-character separator. *)
Fixpoint split (sep : ascii) (s : string) : list string :=
  match s with
  | EmptyString => [EmptyString]
  | String c rest =>
      if Ascii.eqb c sep then EmptyString :: split sep rest
      else match split sep rest with
           | [] => [String c EmptyString]
           | h :: t => String c h :: t
           end
  end.

Definition comma : ascii := ","%char.

Definition lower_ascii (c : ascii) : ascii :=
  let n := nat_of_ascii c in
  if (65 <=? n)%nat && (n <=? 90)%nat then ascii_of_nat (n + 32) else c.

Definition upper_ascii (c : ascii) : ascii :=
  let n := nat_of_ascii c in
  if (97 <=? n)%nat && (n <=? 122)%nat then ascii_of_nat (n - 32) else c.

(** [String.prototype.toLowerCase], on the ASCII letters. *)
Fixpoint toLowerCase (s : string) : string :=
  match s with
  | EmptyString => EmptyString
  | String c rest => String (lower_ascii c) (toLowerCase rest)
  end.

(** [str.charAt(0).toUpperCase() + str.slice(1)], the [capitalize]
    helper registered with Handlebars. *)
Definition capitalize (s : string) : string :=
  match s with
  | EmptyString => EmptyString
  | String c rest => String (upper_ascii c) rest
  end.

(** Handlebars [{{#if v}}] on an array: the empty array is falsy. *)
Definition hb_if_array (A : Type) (l : list A) : bool :=
  match l with
  | [] => false
  | _ :: _ => true
  end.

End JS.

(* ================================================================== *)
(** * Template variable calculation (CLI_SCAFFOLD_GUIDE.md) *)
(* ================================================================== *)

Inductive AuthType : Type :=
  | none
  | ownership
  | role
  | custom.

Definition AuthType_eqb (a b : AuthType) : bool :=
  match a, b with
  | none, none | ownership, ownership | role, role | custom, custom => true
  | _, _ => false
  end.

(** The options object handed to [buildContext]; the fields are the
    ones [buildContext] and the rendering block read.  [roles] and
    [hooks] are still comma-separated strings here. *)
Module Cli.
Record CLIOptions : Type := {
  entityName : string;
  ownershipField : option string;
  auth : option AuthType;
  publicRoutes : option (list string);
  disabledRoutes : option (list string);
  roles : option string;
  hooks : option string;
  withAdmin : bool;
  withTests : bool;
  skipMigration : bool
}.
End Cli.

Module Scaffold.

Record TemplateContext : Type := {
entityName : string;
EntityName : string;
entityNamePlural : string;
tableName : string;
ownershipField : option string;
ownershipFieldSnake : option string;
publicRoutes : list string;
disabledRoutes : list string;
authType : AuthType;
roles : option (list string);
hooks : list string;
(* Computed flags *)
hasAuthConfig : bool;
needsAuth : bool;
needsUserImport : bool;
ownershipCheck : bool;
hasPublicGetAll : bool;
hasPublicGetById : bool;
needsCreateOverride : bool;
hasGetAllOverride : bool;
hasMiddleware : bool;
hasCustomHandlers : bool
}.

Section BuildContext.

(** The naming helpers [pluralize] and [toSnakeCase] are called by
  [buildContext] but not defined in the guide. *)
Variable pluralize : string -> string.
Variable toSnakeCase : string -> string.

Definition buildContext (options : Cli.CLIOptions) : TemplateContext :=
let entityName := JS.toLowerCase options.(Cli.entityName) in
let EntityName := JS.capitalize entityName in
let entityNamePlural := pluralize entityName in
let tableName := entityNamePlural in

let ownershipField :=
  JS.or_str options.(Cli.ownershipField)
    (match options.(Cli.auth) with
     | Some ownership => Some "userId"
     | _ => None
     end) in
let ownershipFieldSnake :=
  JS.cond_str ownershipField (fun f => Some (toSnakeCase f)) None in

let publicRoutes := JS.or_array options.(Cli.publicRoutes) [] in
let disabledRoutes := JS.or_array options.(Cli.disabledRoutes) [] in
let authType :=
  match options.(Cli.auth) with
  | Some a => a
  | None => none
  end in
let roles :=
  JS.cond_str options.(Cli.roles)
    (fun r => Some (JS.split JS.comma r)) None in
let hooks :=
  JS.cond_str options.(Cli.hooks) (fun h => JS.split JS.comma h) [] in

(* Computed flags *)
let hasAuthConfig := negb (AuthType_eqb authType none) in
let needsAuth :=
  negb (JS.includes publicRoutes "create")
  && negb (AuthType_eqb authType none) in
let needsUserImport := JS.truthy ownershipField in
let ownershipCheck := AuthType_eqb authType ownership in
let hasPublicGetAll := JS.includes publicRoutes "getAll" in
let hasPublicGetById := JS.includes publicRoutes "getById" in
let needsCreateOverride := JS.truthy ownershipField in
let hasGetAllOverride := needsUserImport in
let hasMiddleware := needsAuth || JS.defined roles in
let hasCustomHandlers := false in

{| entityName := entityName;
   EntityName := EntityName;
   entityNamePlural := entityNamePlural;
   tableName := tableName;
   ownershipField := ownershipField;
   ownershipFieldSnake := ownershipFieldSnake;
   publicRoutes := publicRoutes;
   disabledRoutes := disabledRoutes;
   authType := authType;
   roles := roles;
   hooks := hooks;
   hasAuthConfig := hasAuthConfig;
   needsAuth := needsAuth;
   needsUserImport := needsUserImport;
   ownershipCheck := ownershipCheck;
   hasPublicGetAll := hasPublicGetAll;
   hasPublicGetById := hasPublicGetById;
   needsCreateOverride := needsCreateOverride;
   hasGetAllOverride := hasGetAllOverride;
   hasMiddleware := hasMiddleware;
   hasCustomHandlers := hasCustomHandlers |}.

End BuildContext.

End Scaffold.
Import Scaffold.

(* ================================================================== *)
(** * Template rendering and file writing (CLI_SCAFFOLD_GUIDE.md) *)
(* ================================================================== *)

Module Render.

(** The keys of the [templates] and [files] objects, in the order in
    which the object literals list them. *)
Inductive TemplateName : Type :=
  | model
  | dto
  | service
  | controller
  | route
  | adminRoute
  | test
  | migration.

(** [templates.k(context)]: a compiled Handlebars template applied
    to the context.  Every template of the guide carries static text,
    so the rendered string is never empty (it is truthy); the record
    keeps which template was applied to which context. *)
Record Rendered : Type := {
  template : TemplateName;
  binding : TemplateContext
}.

(** An entry of [Object.entries(files)]; [None] is [null]. *)
Definition Entry : Type := (TemplateName * option Rendered)%type.

(** One call [writeFile(getFilePath(name, context), content)]. *)
Record WrittenFile : Type := {
  name : TemplateName;
  context : TemplateContext;
  content : Rendered
}.

Section Pipeline.

Variable pluralize : string -> string.
Variable toSnakeCase : string -> string.

(** [templates.k(context)].  Handlebars parses a template when it is
    first applied.  The test template writes
    [${{{entityName}}Id}] and [${{{#if ownershipField}}...]: the
    three braces open a triple mustache that the two closing braces
    do not close, so applying it throws a parse error whatever the
    context is.  The seven other templates have no such place and
    render. *)
Definition applyTemplate (k : TemplateName) (context : TemplateContext)
  : string + Rendered :=
  match k with
  | test => inl "Parse error"
  | _ => inr {| template := k; binding := context |}
  end.

(** One member of the [files] literal: [templates.k(context)] when
    the file is wanted, else [null]. *)
Definition member (k : TemplateName) (wanted : bool)
  (context : TemplateContext) : string + Entry :=
  if wanted
  then match applyTemplate k context with
       | inr r => inr (k, Some r)
       | inl e => inl e
       end
  else inr (k, None).

(** The members of an object literal are evaluated in order; the
    first one that throws ends the evaluation. *)
Fixpoint literal (members : list (string + Entry)) : string + list Entry :=
  match members with
  | [] => inr []
  | inl e :: _ => inl e
  | inr m :: rest =>
      match literal rest with
      | inr ms => inr (m :: ms)
      | inl e => inl e
      end
  end.

(** The [files] object literal, as its entries in insertion order,
    or the error thrown while it is built. *)
Definition renderFiles (options : Cli.CLIOptions) : string + list Entry :=
  let context := buildContext pluralize toSnakeCase options in
  literal
    [ member model true context;
      member dto true context;
      member service true context;
      member controller true context;
      member route true context;
      member adminRoute options.(Cli.withAdmin) context;
      member test options.(Cli.withTests) context;
      member migration (negb options.(Cli.skipMigration)) context ].

(** The [for (const [name, content] of Object.entries(files))]
    loop: the files written so far are threaded through. *)
Fixpoint writeAll (context : TemplateContext) (entries : list Entry)
  (written : list WrittenFile) : list WrittenFile :=
  match entries with
  | [] => written
  | (k, Some c) :: rest =>
      writeAll context rest
        (written ++ [{| name := k; context := context; content := c |}])
  | (_, None) :: rest => writeAll context rest written
  end.

(** The whole block: build the context, render, write.  The result
    is the list of the files written; when building [files] throws,
    the loop is not reached and no file is written. *)
Definition generate (options : Cli.CLIOptions) : list WrittenFile :=
  match renderFiles options with
  | inr entries =>
      writeAll (buildContext pluralize toSnakeCase options) entries []
  | inl _ => []
  end.

End Pipeline.

(** Which generated files a generated file imports, read off the
    import lines of the eight templates (imports of the shared base
    classes, of the database handle and of the auth module are not
    generated files). *)
Definition imports (k : TemplateName) : list TemplateName :=
  match k with
  | model => []
  | dto => []
  | service => [model; dto]
  | controller => [service]
  | route => [controller; dto]
  | adminRoute => [model]
  | test => [model]
  | migration => []
  end.

(** [[x]] when [b] holds, else no element. *)
Definition optional (A : Type) (b : bool) (x : A) : list A :=
  if b then [x] else [].

(** The import edges between the files of a plan. *)
Definition edges (plan : list WrittenFile)
  : list (TemplateName * TemplateName) :=
  flat_map (fun f => map (pair (name f)) (imports (name f))) plan.

(** The spec's result of the Option Normalizer: a normalized
    configuration or a [ConfigurationError]. *)
Inductive NormalizeResult : Type :=
  | Normalized (config : TemplateContext)
  | ConfigurationError (message : string).

End Render.

Section Normalize.

Variable pluralize : string -> string.
Variable toSnakeCase : string -> string.

(** [buildContext] seen as the Option Normalizer.  Its body has no
    [throw] and no validation branch: every options object is
    normalized. *)
Definition normalize (options : Cli.CLIOptions) : Render.NormalizeResult :=
  Render.Normalized (buildContext pluralize toSnakeCase options).

End Normalize.

(* ================================================================== *)
(** * Route file and BaseRouteFactory.createCrudRoutes *)
(* ================================================================== *)

Module RouteFactory.

Inductive RouteKind : Type :=
  | getAll
  | getById
  | create
  | update
  | delete.

Definition allKinds : list RouteKind :=
  [getAll; getById; create; update; delete].

(** The string a route kind goes by in [publicRoutes] and
    [disabledRoutes]. *)
Definition routeName (k : RouteKind) : string :=
  match k with
  | getAll => "getAll"
  | getById => "getById"
  | create => "create"
  | update => "update"
  | delete => "delete"
  end.

Definition mutating (k : RouteKind) : bool :=
  match k with
  | create | update | delete => true
  | getAll | getById => false
  end.

(** [validate k] is the request-body validation against the schema
    the route file passes for [k]. *)
Inductive MiddlewareHandler : Type :=
  | requireAuth
  | requireRole (allowed : list string)
  | validate (k : RouteKind).

(** The [middleware] member of [CrudRouteConfig]; the route template
    never fills [custom]. *)
Record MiddlewareConfig : Type := {
  auth : option MiddlewareHandler;
  role : option MiddlewareHandler
}.

(** [CrudRouteConfig], without the controller and schema members,
    which the template always passes and which play no part in
    which routes are registered or protected. *)
Record CrudRouteConfig : Type := {
  basePath : string;
  publicRoutes : option (list string);
  disabledRoutes : option (list string);
  middleware : option MiddlewareConfig
}.

(** Template 5 (the route file): the argument it passes to
    [createCrudRoutes].  [{{#if publicRoutes}}] and
    [{{#if disabledRoutes}}] are Handlebars tests on arrays;
    [{{#if roles}}] on a possibly-undefined array.  The template
    prints the elements of the lists without quotes; the record
    keeps the strings they stand for. *)
Definition routeTemplate (ctx : TemplateContext) : CrudRouteConfig :=
  {| basePath := "/" ++ ctx.(entityNamePlural);
     publicRoutes :=
       if JS.hb_if_array ctx.(Scaffold.publicRoutes)
       then Some ctx.(Scaffold.publicRoutes) else None;
     disabledRoutes :=
       if JS.hb_if_array ctx.(Scaffold.disabledRoutes)
       then Some ctx.(Scaffold.disabledRoutes) else None;
     middleware :=
       if ctx.(hasMiddleware)
       then Some
              {| auth :=
                   if ctx.(needsAuth) then Some requireAuth else None;
                 role :=
                   match ctx.(roles) with
                   | Some (r :: rs) => Some (requireRole (r :: rs))
                   | _ => None
                   end |}
       else None |}.

(** The auth and role handlers of a configuration, in that order:
    [middleware.auth] and [middleware.role], which the
    [CrudRouteConfig] interface describes as "applied to protected
    routes". *)
Definition authMiddleware (cfg : CrudRouteConfig)
  : list MiddlewareHandler :=
  match cfg.(middleware) with
  | None => []
  | Some m =>
      (match m.(auth) with Some h => [h] | None => [] end)
      ++ (match m.(role) with Some h => [h] | None => [] end)
  end.

(** [config.middleware?.auth]: the auth handler the route file
    passes, if it passes one. *)
Definition configuredAuth (cfg : CrudRouteConfig)
  : option MiddlewareHandler :=
  match cfg.(middleware) with
  | None => None
  | Some m => m.(auth)
  end.

(** Modelled from the spec: the RouteDecision of a route kind. *)
Record RouteDecision : Type := {
  emitted : bool;
  public : bool;
  middlewareChain : list MiddlewareHandler
}.

(** The routes that accept a request body. *)
Definition acceptsBody (k : RouteKind) : bool :=
  match k with
  | create | update => true
  | getAll | getById | delete => false
  end.

(** Modelled from the spec: the Route Plan Builder (section 4.4),
    applied to the configuration the route file passes.
    base-route.factory.ts, which defines [createCrudRoutes], is not
    among the sources; the guide shows of it only two tests, written
    out for [getAll].
    - [emitted]: the kind is not in [disabledRoutes];
    - [public]: for [getAll] and [getById], the kind is in
      [publicRoutes]; for the mutating kinds, [false] always;
    - [middlewareChain]: the auth and role middleware of the
      configuration unless the route is public, then the
      request-body validation on [create] and [update] (the route
      file declares no custom middleware). *)
Definition routeDecision (cfg : CrudRouteConfig) (k : RouteKind)
  : RouteDecision :=
  let publicRoutes := JS.or_array cfg.(publicRoutes) [] in
  let disabledRoutes := JS.or_array cfg.(disabledRoutes) [] in
  let isPublic :=
    if mutating k then false else JS.includes publicRoutes (routeName k) in
  {| emitted := negb (JS.includes disabledRoutes (routeName k));
     public := isPublic;
     middlewareChain :=
       (if isPublic then [] else authMiddleware cfg)
       ++ (if acceptsBody k then [validate k] else []) |}.

(** Modelled from the spec: the routes a configuration registers,
    that is the kinds whose decision says [emitted], each with its
    middleware chain.  They are listed in the order in which the
    spec enumerates the route kinds. *)
Definition createCrudRoutes (cfg : CrudRouteConfig)
  : list (RouteKind * list MiddlewareHandler) :=
  flat_map
    (fun k =>
       let d := routeDecision cfg k in
       if d.(emitted) then [(k, d.(middlewareChain))] else [])
    allKinds.

End RouteFactory.

Section RoutePlan.

Variable pluralize : string -> string.
Variable toSnakeCase : string -> string.

(** From the command-line options to the decision for one route:
    [buildContext], then the route template, then the route plan. *)
Definition routePlan (options : Cli.CLIOptions)
  (k : RouteFactory.RouteKind) : RouteFactory.RouteDecision :=
  RouteFactory.routeDecision
    (RouteFactory.routeTemplate
       (buildContext pluralize toSnakeCase options)) k.

End RoutePlan.

(* ================================================================== *)
(** * Declarative authorization (BaseController) *)
(* ================================================================== *)

Module Controller.

(** Modelled from the spec: the AuthRule of a mutating route.
    base.controller.ts, which declares [AuthConfig], is not among
    the sources; the four fields are those of the spec's data
    model. *)
Record AuthRule : Type := {
  roles : list string;
  ownershipCheck : bool;
  customCheck : bool;
  superadminBypass : bool
}.

(** The authenticated caller, as [c.get("user")] holds it. *)
Record User : Type := {
  id : Z;
  userRole : string
}.

Inductive Check : Type :=
  | BypassCheck
  | RoleCheck
  | OwnershipCheck
  | CustomCheck.

Inductive Verdict : Type :=
  | Allowed
  | Forbidden (by_check : Check).

(** Modelled from the spec: [checkAuth], the evaluation of a rule
    for one request, with the checks it evaluates in order.  The
    superadmin bypass, when the rule carries it, comes first and
    ends the evaluation for a superadmin; then the role check (when
    roles are listed), the ownership check (the entity's owner
    against the caller), the custom check (an external
    collaborator, here its outcome [customOk]). *)
Definition checkAuth (rule : AuthRule) (user : User) (owner : Z)
  (customOk : bool) : list Check * Verdict :=
  let afterCustom (seen : list Check) :=
    if rule.(customCheck)
    then (seen ++ [CustomCheck],
          if customOk then Allowed else Forbidden CustomCheck)
    else (seen, Allowed) in
  let afterOwnership (seen : list Check) :=
    if rule.(ownershipCheck)
    then if (owner =? user.(id))%Z
         then afterCustom (seen ++ [OwnershipCheck])
         else (seen ++ [OwnershipCheck], Forbidden OwnershipCheck)
    else afterCustom seen in
  let afterRole (seen : list Check) :=
    match rule.(roles) with
    | [] => afterOwnership seen
    | _ :: _ =>
        if JS.includes rule.(roles) user.(userRole)
        then afterOwnership (seen ++ [RoleCheck])
        else (seen ++ [RoleCheck], Forbidden RoleCheck)
    end in
  if rule.(superadminBypass)
  then if (user.(userRole) =? "superadmin")%string
       then ([BypassCheck], Allowed)
       else afterRole [BypassCheck]
  else afterRole [].

End Controller.

(* ================================================================== *)
(** * The controller template (CLI_SCAFFOLD_GUIDE.md, template 4) *)
(* ================================================================== *)

Module ControllerFile.

(** What the template reads under [authConfig.<action>]: the roles
    and whether the action has an ownership check. *)
Record ActionConfig : Type := {
  roles : list string;
  ownershipCheck : bool
}.

(** [authConfig.<action>] looked up in the context.
    [TemplateContext] declares no [authConfig] member and
    [buildContext] returns none, so Handlebars finds nothing, for
    every action and every context. *)
Definition authConfig (ctx : TemplateContext) (k : RouteFactory.RouteKind)
  : option ActionConfig :=
  None.

(** One entry of the auth configuration the generated constructor
    passes to [BaseController]: the roles, and the field the
    ownership check compares with the user id. *)
Record AuthConfig : Type := {
  cfg_roles : option (list string);
  cfg_ownershipCheck : option string
}.

Record AuthConfigs : Type := {
  create : option AuthConfig;
  update : option AuthConfig;
  delete : option AuthConfig
}.

(** [{{ownershipField}}]: the field, or nothing when undefined. *)
Definition fieldText (ctx : TemplateContext) : string :=
  match ownershipField ctx with
  | Some f => f
  | None => EmptyString
  end.

(** The block [{{#if authConfig.k}} k: { ... }, {{/if}}]. *)
Definition renderAction (ctx : TemplateContext) (k : RouteFactory.RouteKind)
  : option AuthConfig :=
  match authConfig ctx k with
  | None => None
  | Some a =>
      Some {| cfg_roles :=
                if JS.hb_if_array (roles a) then Some (roles a) else None;
              cfg_ownershipCheck :=
                if ownershipCheck a then Some (fieldText ctx) else None |}
  end.

(** The generated controller: the third argument of [super(...)],
    written under [{{#if hasAuthConfig}}], and the field the
    [create] override injects from [user.id], written under
    [{{#if needsCreateOverride}}]. *)
Record Controller : Type := {
  authArgument : option AuthConfigs;
  createOverride : option string
}.

Definition controllerTemplate (ctx : TemplateContext) : Controller :=
  {| authArgument :=
       if hasAuthConfig ctx
       then Some {| create := renderAction ctx RouteFactory.create;
                    update := renderAction ctx RouteFactory.update;
                    delete := renderAction ctx RouteFactory.delete |}
       else None;
     createOverride :=
       if needsCreateOverride ctx then Some (fieldText ctx) else None |}.

(** The hand-written [ArticleController]
    (src/entities/articles/article.controller.ts), the reference for
    an entity under ownership auth: an ownership check on [authorId]
    for [update] and for [delete], none for [create], and a [create]
    override that stores the caller's id as the author. *)
Definition articleController : Controller :=
  {| authArgument :=
       Some {| create := None;
               update := Some {| cfg_roles := None;
                                 cfg_ownershipCheck := Some "authorId" |};
               delete := Some {| cfg_roles := None;
                                 cfg_ownershipCheck := Some "authorId" |} |};
     createOverride := Some "authorId" |}.

End ControllerFile.

(* ================================================================== *)
(** * BaseService (src/shared/services/base.service.ts) *)
(* ================================================================== *)

Module Service.

Inductive HookName : Type :=
  | beforeCreate
  | afterCreate
  | beforeUpdate
  | afterUpdate
  | beforeDelete
  | afterDelete.

Section BaseService.

(** The columns of a row besides [id] and [updatedAt], and the
    update DTO with the way [.set({...processedData})] applies it
    to them. *)
Variable Columns : Type.
Variable UpdateDTO : Type.
Variable setColumns : UpdateDTO -> Columns -> Columns.

(** The [id] key of an update DTO, when it carries one: [.set]
    receives every key of the data, so such a DTO gives the rows it
    matches a new id. *)
Variable dtoId : UpdateDTO -> option Z.

Record Row : Type := {
  id : Z;
  columns : Columns;
  updatedAt : Z
}.

(** The table behind [this.table], the hooks invoked so far (kept
    by the model, out of the reach of hook bodies) and the value
    of [new Date()]. *)
Record World : Type := {
  table : list Row;
  calls : list HookName;
  now : Z
}.

Inductive Outcome (A : Type) : Type :=
  | Returned (a : A) (w : World)
  | Thrown (error : string) (w : World).

Arguments Thrown {A} error w.

Definition M (A : Type) : Type := World -> Outcome A.

Definition ret (A : Type) (a : A) : M A := fun w => Returned a w.

Definition bind (A B : Type) (m : M A) (k : A -> M B) : M B :=
  fun w =>
    match m w with
    | Returned a w' => k a w'
    | Thrown e w' => Thrown e w'
    end.

(** The body of a hook: it may read and write the table, and it
    returns or throws. *)
Definition HookBody (A : Type) : Type :=
  list Row -> (string + A) * list Row.

(** Calling a hook method: the call is recorded, then the body
    runs. *)
Definition invoke (A : Type) (h : HookName) (body : HookBody A) : M A :=
  fun w =>
    let called := calls w ++ [h] in
    match body (table w) with
    | (inr a, t) =>
        Returned a {| table := t; calls := called; now := now w |}
    | (inl e, t) =>
        Thrown e {| table := t; calls := called; now := now w |}
    end.

(** The optional hook methods a subclass may override ([None]: not
    implemented).  Only the hooks of [update] and [delete] are
    modelled. *)
Record Hooks : Type := {
  hook_beforeUpdate : option (Z -> UpdateDTO -> HookBody UpdateDTO);
  hook_afterUpdate : option (Row -> HookBody Row);
  hook_beforeDelete : option (Z -> HookBody unit);
  hook_afterDelete : option (Z -> HookBody unit)
}.

Definition hasId (i : Z) (r : Row) : bool := (id r =? i)%Z.

(** [id] is the primary key of the table: a row cannot take the id
    of another row. *)
Definition duplicateKey : string :=
  "duplicate key value violates unique constraint".

Definition collides (data : UpdateDTO) (matched others : list Row) : bool :=
  match dtoId data, matched with
  | Some j, _ :: _ => existsb (hasId j) others
  | _, _ => false
  end.

(** [db.update(table).set({...data, updatedAt: new Date()})
     .where(eq(table.id, id)).returning()].  PostgreSQL writes the
    new version of a row it updates behind the rows of the table,
    so a later select without [ORDER BY] answers the updated rows
    last. *)
Definition dbUpdate (i : Z) (data : UpdateDTO) : M (list Row) :=
  fun w =>
    let change (r : Row) : Row :=
      {| id := match dtoId data with Some j => j | None => id r end;
         columns := setColumns data (columns r);
         updatedAt := now w |} in
    let matched := filter (hasId i) (table w) in
    let others := filter (fun r => negb (hasId i r)) (table w) in
    if collides data matched others
    then Thrown duplicateKey w
    else
      Returned (map change matched)
        {| table := others ++ map change matched;
           calls := calls w;
           now := now w |}.

(** [db.delete(table).where(eq(table.id, id)).returning()] *)
Definition dbDelete (i : Z) : M (list Row) :=
  fun w =>
    Returned (filter (hasId i) (table w))
      {| table := filter (fun r => negb (hasId i r)) (table w);
         calls := calls w;
         now := now w |}.

Variable hooks : Hooks.

Local Notation "x <- m ;; k" := (bind m (fun x => k))
  (at level 61, m at next level, right associativity).

(** The [processedData] step of [update]. *)
Definition update_before (i : Z) (data : UpdateDTO) : M UpdateDTO :=
  match hook_beforeUpdate hooks with
  | Some h => invoke beforeUpdate (h i data)
  | None => ret data
  end.

Definition update (i : Z) (data : UpdateDTO) : M (option Row) :=
  processedData <- update_before i data ;;
  updated <- dbUpdate i processedData ;;
  match updated with
  | [] => ret None
  | result :: _ =>
      match hook_afterUpdate hooks with
      | Some h => r <- invoke afterUpdate (h result) ;; ret (Some r)
      | None => ret (Some result)
      end
  end.

(** The [if (this.beforeDelete)] statement of [delete]. *)
Definition delete_before (i : Z) : M unit :=
  match hook_beforeDelete hooks with
  | Some h => invoke beforeDelete (h i)
  | None => ret tt
  end.

Definition delete (i : Z) : M bool :=
  _ <- delete_before i ;;
  deleted <- dbDelete i ;;
  let success := (0 <? List.length deleted)%nat in
  _ <- match hook_afterDelete hooks with
       | Some h => if success then invoke afterDelete (h i) else ret tt
       | None => ret tt
       end ;;
  ret success.

End BaseService.

End Service.

(* ================================================================== *)
(** * Naming helpers and sample inputs *)
(* ================================================================== *)

Module Naming.

Definition is_upper (c : ascii) : bool :=
  let n := nat_of_ascii c in (65 <=? n)%nat && (n <=? 90)%nat.

(** Modelled from the spec: [pluralize], which the guide calls but
    does not define.  The simple English rule of the Identifier
    Deriver: [y] becomes [ies]; after [s], [x], [ch] or [sh] append
    [es]; otherwise append [s]. *)
Fixpoint pluralize (s : string) : string :=
  match s with
  | EmptyString => "s"
  | String c rest =>
      match rest with
      | EmptyString =>
          if Ascii.eqb c "y" then "ies"
          else if Ascii.eqb c "s" || Ascii.eqb c "x"
               then String c "es"
               else String c "s"
      | String d EmptyString =>
          if (Ascii.eqb c "c" || Ascii.eqb c "s") && Ascii.eqb d "h"
          then String c (String d "es")
          else String c (pluralize rest)
      | _ => String c (pluralize rest)
      end
  end.

(** Modelled from the spec: [toSnakeCase], which the guide calls but
    does not define; the guide's example is [authorId] to
    [author_id]. *)
Fixpoint toSnakeCase (s : string) : string :=
  match s with
  | EmptyString => EmptyString
  | String c rest =>
      if is_upper c
      then String "_" (String (JS.lower_ascii c) (toSnakeCase rest))
      else String c (toSnakeCase rest)
  end.

End Naming.

Module Samples.

(** [tstack-kit generate entity article --public-routes=getAll,getById
     --auth=ownership --ownership-field=authorId] *)
Definition article : Cli.CLIOptions :=
  {| Cli.entityName := "article";
     Cli.ownershipField := Some "authorId";
     Cli.auth := Some ownership;
     Cli.publicRoutes := Some ["getAll"; "getById"];
     Cli.disabledRoutes := None;
     Cli.roles := None;
     Cli.hooks := Some "beforeCreate";
     Cli.withAdmin := true;
     Cli.withTests := true;
     Cli.skipMigration := false |}.

(** Ownership auth with [create] listed as a public route. *)
Definition publicCreate : Cli.CLIOptions :=
  {| Cli.entityName := "comment";
     Cli.ownershipField := None;
     Cli.auth := Some ownership;
     Cli.publicRoutes := Some ["create"];
     Cli.disabledRoutes := None;
     Cli.roles := None;
     Cli.hooks := None;
     Cli.withAdmin := false;
     Cli.withTests := false;
     Cli.skipMigration := false |}.

(** [getAll] listed both as public and as disabled. *)
Definition conflict : Cli.CLIOptions :=
  {| Cli.entityName := "category";
     Cli.ownershipField := None;
     Cli.auth := None;
     Cli.publicRoutes := Some ["getAll"; "getById"];
     Cli.disabledRoutes := Some ["getAll"];
     Cli.roles := None;
     Cli.hooks := None;
     Cli.withAdmin := false;
     Cli.withTests := false;
     Cli.skipMigration := false |}.

(** [--auth=role] without [--roles]. *)
Definition roleWithoutRoles : Cli.CLIOptions :=
  {| Cli.entityName := "user";
     Cli.ownershipField := None;
     Cli.auth := Some role;
     Cli.publicRoutes := None;
     Cli.disabledRoutes := None;
     Cli.roles := None;
     Cli.hooks := None;
     Cli.withAdmin := true;
     Cli.withTests := false;
     Cli.skipMigration := false |}.

(** [--auth=ownership --ownership-field=] (an empty field name). *)
Definition emptyOwnershipField : Cli.CLIOptions :=
  {| Cli.entityName := "post";
     Cli.ownershipField := Some EmptyString;
     Cli.auth := Some ownership;
     Cli.publicRoutes := None;
     Cli.disabledRoutes := None;
     Cli.roles := None;
     Cli.hooks := None;
     Cli.withAdmin := false;
     Cli.withTests := false;
     Cli.skipMigration := true |}.

Definition context_of (options : Cli.CLIOptions) : TemplateContext :=
  buildContext Naming.pluralize Naming.toSnakeCase options.

(** [publicCreate] without the [--public-routes] option. *)
Definition protectedCreate : Cli.CLIOptions :=
  {| Cli.entityName := "comment";
     Cli.ownershipField := None;
     Cli.auth := Some ownership;
     Cli.publicRoutes := None;
     Cli.disabledRoutes := None;
     Cli.roles := None;
     Cli.hooks := None;
     Cli.withAdmin := false;
     Cli.withTests := false;
     Cli.skipMigration := false |}.

(** The rule of the update and delete routes of an entity under
    ownership auth: ownership check and superadmin bypass. *)
Definition ownerRule : Controller.AuthRule :=
  {| Controller.roles := [];
     Controller.ownershipCheck := true;
     Controller.customCheck := false;
     Controller.superadminBypass := true |}.

(** [category] and [Category] with the same options otherwise: two
    options objects with one context. *)
Definition readOnly (name : string) : Cli.CLIOptions :=
  {| Cli.entityName := name;
     Cli.ownershipField := None;
     Cli.auth := None;
     Cli.publicRoutes := Some ["getAll"; "getById"];
     Cli.disabledRoutes := Some ["create"; "update"; "delete"];
     Cli.roles := None;
     Cli.hooks := None;
     Cli.withAdmin := true;
     Cli.withTests := false;
     Cli.skipMigration := false |}.

End Samples.

(* ================================================================== *)
(** * BaseService: getAll, getById and create *)
(* ================================================================== *)

Module Crud.

Section Read.

Variable Columns : Type.

(** [db.select().from(this.table)] *)
Definition getAll : Service.M Columns (list (Service.Row Columns)) :=
  fun w => Service.Returned (Service.table w) w.

(** [db.select().from(this.table).where(eq(this.table.id, id)).limit(1)],
    then [result.length === 0 ? null : result[0]]. *)
Definition getById (i : Z)
  : Service.M Columns (option (Service.Row Columns)) :=
  fun w =>
    let result := firstn 1 (filter (Service.hasId i) (Service.table w)) in
    Service.Returned
      match result with
      | [] => None
      | r :: _ => Some r
      end
      w.

End Read.

Section Create.

Variable Columns : Type.
Variable CreateDTO : Type.

(** What [INSERT ... VALUES] stores in the columns for a DTO, given
    the rows present: the column values with the table's defaults
    filled in, or the constraint error the database raises.  The
    table schemas are not among the sources. *)
Variable insertValues :
  CreateDTO -> list (Service.Row Columns) -> string + Columns.

Record CreateHooks : Type := {
  hook_beforeCreate : option (CreateDTO -> Service.HookBody Columns CreateDTO);
  hook_afterCreate :
    option (Service.Row Columns
            -> Service.HookBody Columns (Service.Row Columns))
}.

(** [const [newRecord] = await db.insert(this.table).values(data)
     .returning()].  [newId] is the id the [serial] column hands
    out for this row. *)
Definition dbInsert (newId : Z) (data : CreateDTO)
  : Service.M Columns (Service.Row Columns) :=
  fun w =>
    match insertValues data (Service.table w) with
    | inr c =>
        let newRecord :=
          {| Service.id := newId;
             Service.columns := c;
             Service.updatedAt := Service.now w |} in
        Service.Returned newRecord
          {| Service.table := Service.table w ++ [newRecord];
             Service.calls := Service.calls w;
             Service.now := Service.now w |}
    | inl e => @Service.Thrown Columns _ e w
    end.

Variable hooks : CreateHooks.

(** The [processedData] step of [create]. *)
Definition create_before (data : CreateDTO)
  : Service.M Columns CreateDTO :=
  match hook_beforeCreate hooks with
  | Some h => Service.invoke Service.beforeCreate (h data)
  | None => Service.ret data
  end.

Definition create (newId : Z) (data : CreateDTO)
  : Service.M Columns (Service.Row Columns) :=
  Service.bind (create_before data) (fun processedData =>
  Service.bind (dbInsert newId processedData) (fun result =>
  match hook_afterCreate hooks with
  | Some h => Service.invoke Service.afterCreate (h result)
  | None => Service.ret result
  end)).

End Create.

End Crud.

(* ================================================================== *)
(** * ArticleService.generateSlug (src/entities/articles/article.service.ts) *)
(* ================================================================== *)

Module Slug.

Definition hyphen : ascii := "-"%char.

Definition is_hyphen (c : ascii) : bool := Ascii.eqb c hyphen.

(** [\s] on ASCII: tab, line feed, vertical tab, form feed, carriage
    return and space.  These are also the ASCII characters [trim]
    strips. *)
Definition is_space (c : ascii) : bool :=
  let n := nat_of_ascii c in
  ((9 <=? n)%nat && (n <=? 13)%nat) || (n =? 32)%nat.

(** [\w]: the ASCII letters, the digits and the underscore. *)
Definition is_word (c : ascii) : bool :=
  let n := nat_of_ascii c in
  ((97 <=? n)%nat && (n <=? 122)%nat)
  || ((65 <=? n)%nat && (n <=? 90)%nat)
  || ((48 <=? n)%nat && (n <=? 57)%nat)
  || (n =? 95)%nat.

Fixpoint trimStart (s : string) : string :=
  match s with
  | EmptyString => EmptyString
  | String c rest => if is_space c then trimStart rest else s
  end.

Fixpoint trimEnd (s : string) : string :=
  match s with
  | EmptyString => EmptyString
  | String c rest =>
      match trimEnd rest with
      | EmptyString => if is_space c then EmptyString else String c EmptyString
      | String d t => String c (String d t)
      end
  end.

(** [String.prototype.trim] *)
Definition trim (s : string) : string := trimEnd (trimStart s).

(** [s.replace(/[...]/g, "")] for the character class [p]: every
    character of the class is dropped. *)
Fixpoint remove (p : ascii -> bool) (s : string) : string :=
  match s with
  | EmptyString => EmptyString
  | String c rest => if p c then remove p rest else String c (remove p rest)
  end.

(** [s.replace(/[...]+/g, r)] for the character class [p]: every
    maximal run of characters of the class becomes one [r]. *)
Fixpoint collapse (p : ascii -> bool) (r : ascii) (s : string) : string :=
  match s with
  | EmptyString => EmptyString
  | String c rest =>
      if p c then
        match rest with
        | EmptyString => String r EmptyString
        | String d _ =>
            if p d then collapse p r rest else String r (collapse p r rest)
        end
      else String c (collapse p r rest)
  end.

(** The class [[^\w\s-]]. *)
Definition not_slug_input (c : ascii) : bool :=
  negb (is_word c || is_space c || is_hyphen c).

(** [title.toLowerCase().trim().replace(/[^\w\s-]/g, "")
     .replace(/\s+/g, "-").replace(/-+/g, "-")], on ASCII titles. *)
Definition generateSlug (title : string) : string :=
  collapse is_hyphen hyphen
    (collapse is_space hyphen
       (remove not_slug_input
          (trim (JS.toLowerCase title)))).

(** The characters a slug is made of: lower-case letters, digits,
    underscore and hyphen. *)
Definition is_slug_char (c : ascii) : bool :=
  let n := nat_of_ascii c in
  ((97 <=? n)%nat && (n <=? 122)%nat)
  || ((48 <=? n)%nat && (n <=? 57)%nat)
  || (n =? 95)%nat
  || is_hyphen c.

Fixpoint all_chars (p : ascii -> bool) (s : string) : bool :=
  match s with
  | EmptyString => true
  | String c rest => p c && all_chars p rest
  end.

(** No two hyphens in a row. *)
Fixpoint no_double_hyphen (s : string) : bool :=
  match s with
  | EmptyString => true
  | String c rest =>
      match rest with
      | EmptyString => true
      | String d _ =>
          negb (is_hyphen c && is_hyphen d) && no_double_hyphen rest
      end
  end.

End Slug.

(* ================================================================== *)
(** * HTTP responses of the controllers *)
(* ================================================================== *)

Module Http.

(** [ApiResponse.success(data, message?)] and
    [ApiResponse.error(message)]; shared/utils/response.ts is not
    among the sources, the value keeps the arguments. *)
Inductive ApiResponse (A : Type) : Type :=
  | success (data : A) (message : option string)
  | error (message : string).

Arguments error {A} message.

(** [c.json(body, status)]; the status is 200 when not given. *)
Record Response (A : Type) : Type := {
  status : Z;
  body : ApiResponse A
}.

Definition json (A : Type) (b : ApiResponse A) (s : option Z) : Response A :=
  {| status := match s with Some n => n | None => 200%Z end; body := b |}.

End Http.

(* ================================================================== *)
(** * ArticleService and ArticleController.create *)
(* ================================================================== *)

Module Articles.

Definition quote : string := String (ascii_of_nat 34) EmptyString.

Section ArticleService.

(** The fields of an article the service does not look at (content,
    excerpt, ...). *)
Variable Rest : Type.

(** [CreateArticleDTO]: the fields [beforeCreate] reads, and the
    rest. *)
Record CreateArticleDTO : Type := {
  title : string;
  slug : option string;
  isPublished : option bool;
  rest : Rest
}.

(** [CreateArticleDTO & { authorId: number }] *)
Record AuthoredDTO : Type := {
  data : CreateArticleDTO;
  authorId : Z
}.

Record ArticleColumns : Type := {
  col_title : string;
  col_slug : string;
  col_isPublished : bool;
  col_authorId : Z;
  col_rest : Rest
}.

Definition Article : Type := Service.Row ArticleColumns.

Definition hasSlug (s : string) (r : Article) : bool :=
  (col_slug (Service.columns r) =? s)%string.

(** [INSERT] into [articles]: the slug column is [notNull().unique()]
    and the published flag defaults to [false] (the schema as
    BASE_ABSTRACTIONS_ARCHITECTURE.md gives it). *)
Definition insertArticle (d : AuthoredDTO) (t : list Article)
  : string + ArticleColumns :=
  match slug (data d) with
  | None => inl "null value in column slug"
  | Some s =>
      if existsb (hasSlug s) t
      then inl "duplicate key value violates unique constraint"
      else inr {| col_title := title (data d);
                  col_slug := s;
                  col_isPublished :=
                    match isPublished (data d) with
                    | Some b => b
                    | None => false
                    end;
                  col_authorId := authorId d;
                  col_rest := rest (data d) |}
  end.

(** [data.slug || this.generateSlug(data.title)] *)
Definition slugFor (d : CreateArticleDTO) : string :=
  match slug d with
  | Some s => if negb (s =? EmptyString) then s else Slug.generateSlug (title d)
  | None => Slug.generateSlug (title d)
  end.

Definition slugExists (s : string) : string :=
  "Article with slug " ++ quote ++ s ++ quote ++ " already exists".

(** [beforeCreate]: look the slug up, throw [BadRequestError] when
    an article has it, else return the data with the slug and the
    published flag filled in. *)
Definition beforeCreate (d : AuthoredDTO)
  : Service.HookBody ArticleColumns AuthoredDTO :=
  fun t =>
    let s := slugFor (data d) in
    let existing := firstn 1 (filter (hasSlug s) t) in
    if (0 <? List.length existing)%nat
    then (inl (slugExists s), t)
    else (inr {| data :=
                   {| title := title (data d);
                      slug := Some s;
                      isPublished :=
                        Some match isPublished (data d) with
                             | Some b => b
                             | None => false
                             end;
                      rest := rest (data d) |};
                 authorId := authorId d |},
          t).

(** [ArticleService] overrides [beforeCreate] only. *)
Definition articleHooks : Crud.CreateHooks ArticleColumns AuthoredDTO :=
  {| Crud.hook_beforeCreate := Some beforeCreate;
     Crud.hook_afterCreate := None |}.

(** The slugs of the articles stored. *)
Definition slugs (w : Service.World ArticleColumns) : list string :=
  map (fun r => col_slug (Service.columns r)) (Service.table w).

(** The row a successful [createArticle] stores for a DTO. *)
Definition stored (newId : Z) (d : CreateArticleDTO) (author : Z)
  (w : Service.World ArticleColumns) : Article :=
  {| Service.id := newId;
     Service.columns :=
       {| col_title := title d;
          col_slug := slugFor d;
          col_isPublished :=
            match isPublished d with
            | Some b => b
            | None => false
            end;
          col_authorId := author;
          col_rest := rest d |};
     Service.updatedAt := Service.now w |}.

(** [ArticleResponseDTO]: the columns and the joined author name. *)
Record ArticleResponseDTO : Type := {
  article : Article;
  authorName : option string
}.

(** [users.username] of the user with a given id, [None] when the
    left join finds no user or the name is null. *)
Variable username : Z -> option string.

Definition joined (r : Article) : ArticleResponseDTO :=
  {| article := r;
     authorName := username (col_authorId (Service.columns r)) |}.

(** [getAll] override: the published articles with their author. *)
Definition getAll : Service.M ArticleColumns (list ArticleResponseDTO) :=
  fun w =>
    Service.Returned
      (map joined
         (filter (fun r => col_isPublished (Service.columns r))
            (Service.table w)))
      w.

(** [getById] override: the article with its author. *)
Definition getById (i : Z)
  : Service.M ArticleColumns (option ArticleResponseDTO) :=
  fun w =>
    let result :=
      firstn 1 (map joined (filter (Service.hasId i) (Service.table w))) in
    Service.Returned
      match result with
      | [] => None
      | r :: _ => Some r
      end
      w.

(** [createArticle(data, authorId)]: [this.create({ ...data, authorId })],
    answered without an author name. *)
Definition createArticle (newId : Z) (d : CreateArticleDTO) (author : Z)
  : Service.M ArticleColumns ArticleResponseDTO :=
  Service.bind
    (Crud.create insertArticle articleHooks newId
       {| data := d; authorId := author |})
    (fun result =>
       Service.ret {| article := result; authorName := None |}).

Definition notAuthenticated : string := "User not authenticated".

(** [ArticleController.create]: [user] is [c.get("user")],
    [validatedData] is [c.get("validatedData")]. *)
Definition controllerCreate (newId : Z) (user : option Controller.User)
  (validatedData : CreateArticleDTO)
  : Service.M ArticleColumns (Http.Response ArticleResponseDTO) :=
  match user with
  | None => fun w => @Service.Thrown ArticleColumns _ notAuthenticated w
  | Some u =>
      let articleData :=
        {| title := title validatedData;
           slug := slug validatedData;
           isPublished :=
             Some match isPublished validatedData with
                  | Some b => b
                  | None => false
                  end;
           rest := rest validatedData |} in
      Service.bind (createArticle newId articleData (Controller.id u))
        (fun created =>
           Service.ret
             (Http.json
                (Http.success created (Some "Article created successfully"))
                (Some 201%Z)))
  end.

End ArticleService.

End Articles.

(* ================================================================== *)
(** * UserService and UserAdminController (src/auth/user.service.ts) *)
(* ================================================================== *)

Module Users.

Section UserService.

(** [hashPassword] of shared/utils/password.ts, which is not among
    the sources. *)
Variable hashPassword : string -> string.

Record CreateUserDTO : Type := {
  email : string;
  username : option string;
  password : string;
  role : option string;
  isActive : option bool;
  phone : option string
}.

(** [Partial<CreateUserDTO>], also the shape of a request body,
    with fields that are absent or hold a value of their type.  The
    type is not checked at run time: the body [c.req.json()] answers
    may carry an [id] key as well, which [update] hands on. *)
Record PartialUserDTO : Type := {
  p_id : option Z;
  p_email : option string;
  p_username : option string;
  p_password : option string;
  p_role : option string;
  p_isActive : option bool;
  p_phone : option string
}.

Record UserColumns : Type := {
  col_email : string;
  col_username : option string;
  col_password : string;
  col_role : string;
  col_isActive : bool;
  col_phone : option string
}.

Definition UserRow : Type := Service.Row UserColumns.

Definition orElse (A : Type) (v : option A) (d : A) : A :=
  match v with
  | Some x => x
  | None => d
  end.

(** [.set({ ...data })] on a user row: the fields the DTO defines
    replace the columns, the others stay. *)
Definition setUser (d : PartialUserDTO) (c : UserColumns) : UserColumns :=
  {| col_email := orElse (p_email d) (col_email c);
     col_username :=
       match p_username d with
       | Some n => Some n
       | None => col_username c
       end;
     col_password := orElse (p_password d) (col_password c);
     col_role := orElse (p_role d) (col_role c);
     col_isActive := orElse (p_isActive d) (col_isActive c);
     col_phone :=
       match p_phone d with
       | Some n => Some n
       | None => col_phone c
       end |}.

(** The [id] key of the data, which [.set({ ...data })] writes to
    the key column. *)
Definition dtoId (d : PartialUserDTO) : option Z := p_id d.

(** What [INSERT] stores for a new user; the [users] schema (its
    defaults and constraints) is not among the sources. *)
Variable insertUser : CreateUserDTO -> list UserRow -> string + UserColumns.

(** [beforeCreate]: the password is replaced by its hash. *)
Definition beforeCreate (d : CreateUserDTO)
  : Service.HookBody UserColumns CreateUserDTO :=
  fun t =>
    (inr {| email := email d;
            username := username d;
            password := hashPassword (password d);
            role := role d;
            isActive := isActive d;
            phone := phone d |},
     t).

(** [beforeUpdate]: [if (data.password)] the password is replaced by
    its hash, else the data is returned as it is. *)
Definition beforeUpdate (_ : Z) (d : PartialUserDTO)
  : Service.HookBody UserColumns PartialUserDTO :=
  fun t =>
    (inr (JS.cond_str (p_password d)
            (fun p =>
               {| p_id := p_id d;
                  p_email := p_email d;
                  p_username := p_username d;
                  p_password := Some (hashPassword p);
                  p_role := p_role d;
                  p_isActive := p_isActive d;
                  p_phone := p_phone d |})
            d),
     t).

Definition userHooks : Service.Hooks UserColumns PartialUserDTO :=
  {| Service.hook_beforeUpdate := Some beforeUpdate;
     Service.hook_afterUpdate := None;
     Service.hook_beforeDelete := None;
     Service.hook_afterDelete := None |}.

Definition userCreateHooks : Crud.CreateHooks UserColumns CreateUserDTO :=
  {| Crud.hook_beforeCreate := Some beforeCreate;
     Crud.hook_afterCreate := None |}.

Definition required : string := "Email and password are required".
Definition notFound : string := "User not found".

(** [UserAdminController.create]; [body] is [await c.req.json()]. *)
Definition create (newId : Z) (body : PartialUserDTO)
  : Service.M UserColumns (Http.Response UserRow) :=
  if negb (JS.truthy (p_email body)) || negb (JS.truthy (p_password body))
  then fun w => @Service.Thrown UserColumns _ required w
  else
    Service.bind
      (Crud.create insertUser userCreateHooks newId
         {| email := orElse (p_email body) EmptyString;
            username := p_username body;
            password := orElse (p_password body) EmptyString;
            role := p_role body;
            isActive := p_isActive body;
            phone := p_phone body |})
      (fun result =>
         Service.ret
           (Http.json (Http.success result (Some "User created successfully"))
              (Some 201%Z))).

(** [UserAdminController.getAll] *)
Definition getAll : Service.M UserColumns (Http.Response (list UserRow)) :=
  Service.bind (Crud.getAll (Columns := UserColumns))
    (fun result => Service.ret (Http.json (Http.success result None) None)).

(** [UserAdminController.getById]; [i] is [parseInt(c.req.param("id"))]
    for a numeric id. *)
Definition getById (i : Z) : Service.M UserColumns (Http.Response UserRow) :=
  Service.bind (Crud.getById (Columns := UserColumns) i)
    (fun result =>
       Service.ret
         match result with
         | None => Http.json (Http.error notFound) (Some 404%Z)
         | Some r => Http.json (Http.success r None) None
         end).

(** [UserAdminController.update]; [body] is [await c.req.json()],
    passed to the service as it is. *)
Definition update (i : Z) (body : PartialUserDTO)
  : Service.M UserColumns (Http.Response UserRow) :=
  Service.bind (Service.update setUser dtoId userHooks i body)
    (fun result =>
       Service.ret
         match result with
         | None => Http.json (Http.error notFound) (Some 404%Z)
         | Some r =>
             Http.json (Http.success r (Some "User updated successfully")) None
         end).

(** [UserAdminController.delete]; the data of the success answer is
    [null]. *)
Definition delete (i : Z) : Service.M UserColumns (Http.Response unit) :=
  Service.bind (Service.delete userHooks i)
    (fun success =>
       Service.ret
         (if negb success
          then Http.json (Http.error notFound) (Some 404%Z)
          else Http.json
                 (Http.success tt (Some "User deleted successfully")) None)).

End UserService.

End Users.

(* ================================================================== *)
(** * Order of the written files *)
(* ================================================================== *)

Module Deps.

Definition TemplateName_eqb (a b : Render.TemplateName) : bool :=
  match a, b with
  | Render.model, Render.model
  | Render.dto, Render.dto
  | Render.service, Render.service
  | Render.controller, Render.controller
  | Render.route, Render.route
  | Render.adminRoute, Render.adminRoute
  | Render.test, Render.test
  | Render.migration, Render.migration => true
  | _, _ => false
  end.

(** Every file of [rest] is written after the generated files it
    imports, [written] being the files written before [rest]. *)
Fixpoint importsWritten (written rest : list Render.TemplateName) : bool :=
  match rest with
  | [] => true
  | k :: rest' =>
      forallb (fun d => existsb (TemplateName_eqb d) written)
        (Render.imports k)
      && importsWritten (written ++ [k]) rest'
  end.

End Deps.

(* ================================================================== *)
(** * Comma-separated option values *)
(* ================================================================== *)

Module Csv.

(** A string without a comma. *)
Fixpoint comma_free (s : string) : bool :=
  match s with
  | EmptyString => true
  | String c rest => negb (Ascii.eqb c JS.comma) && comma_free rest
  end.

(** [Array.prototype.join(",")] *)
Definition join (l : list string) : string := String.concat "," l.

End Csv.

(** A service like [TestEntityWithHooksService] of
    base.service.test.ts: rows with a name, an update DTO that sets
    the name, and hooks that leave the table alone and return. *)
Module ServiceSamples.

Definition Row : Type := Service.Row string.
Definition World : Type := Service.World string.

Definition setName (data : string) (_ : string) : string := data.

(** The update data of the tests, [{ name }], has no [id] key. *)
Definition noId (_ : string) : option Z := None.

Definition testHooks : Service.Hooks string string :=
  {| Service.hook_beforeUpdate := Some (fun _ data t => (inr data, t));
     Service.hook_afterUpdate := Some (fun result t => (inr result, t));
     Service.hook_beforeDelete := Some (fun _ t => (inr tt, t));
     Service.hook_afterDelete := Some (fun _ t => (inr tt, t)) |}.

(** [TestEntityService]: no hook implemented. *)
Definition noHooks : Service.Hooks string string :=
  {| Service.hook_beforeUpdate := None;
     Service.hook_afterUpdate := None;
     Service.hook_beforeDelete := None;
     Service.hook_afterDelete := None |}.

Definition entity (i : Z) (n : string) : Row :=
  {| Service.id := i; Service.columns := n; Service.updatedAt := 0 |}.

Definition world (t : list Row) (called : list Service.HookName) : World :=
  {| Service.table := t; Service.calls := called; Service.now := 7 |}.

Definition three : list Row :=
  [entity 1 "Entity 1"; entity 2 "Entity 2"; entity 3 "Entity 3"].

End ServiceSamples.

(* ================================================================== *)
(** * Sample services *)
(* ================================================================== *)

Module MoreSamples.

(** A test service with a [beforeCreate] hook that returns its data
    and an insert that stores the name as it is. *)
Definition insertName (d : string) (_ : list ServiceSamples.Row)
  : string + string := inr d.

Definition createHooks : Crud.CreateHooks string string :=
  {| Crud.hook_beforeCreate := Some (fun d t => (inr d, t));
     Crud.hook_afterCreate := None |}.

(** A [beforeCreate] hook that refuses every record. *)
Definition refusingHooks : Crud.CreateHooks string string :=
  {| Crud.hook_beforeCreate := Some (fun _ t => (inl "refused", t));
     Crud.hook_afterCreate := None |}.

(** A service with a [beforeUpdate] hook and no [afterUpdate]. *)
Definition updateHooks : Service.Hooks string string :=
  {| Service.hook_beforeUpdate := Some (fun _ d t => (inr d, t));
     Service.hook_afterUpdate := None;
     Service.hook_beforeDelete := None;
     Service.hook_afterDelete := None |}.

(** Articles without further fields. *)
Definition draft (t : string) : Articles.CreateArticleDTO unit :=
  {| Articles.title := t;
     Articles.slug := None;
     Articles.isPublished := None;
     Articles.rest := tt |}.

Definition helloWorld : Articles.Article unit :=
  {| Service.id := 1;
     Service.columns :=
       {| Articles.col_title := "Hello World";
          Articles.col_slug := "hello-world";
          Articles.col_isPublished := true;
          Articles.col_authorId := 5;
          Articles.col_rest := tt |};
     Service.updatedAt := 0 |}.

Definition blog : Service.World (Articles.ArticleColumns unit) :=
  {| Service.table := [helloWorld]; Service.calls := []; Service.now := 7 |}.

Definition usernames (i : Z) : option string :=
  if (i =? 5)%Z then Some "ada" else None.

Definition ada : Controller.User :=
  {| Controller.id := 5; Controller.userRole := "user" |}.

(** Users: a hash that marks its argument, an insert with the
    defaults [role = "user"] and [isActive = true]. *)
Definition hash (p : string) : string := ("hashed:" ++ p)%string.

Definition insertUser (d : Users.CreateUserDTO) (_ : list Users.UserRow)
  : string + Users.UserColumns :=
  inr {| Users.col_email := Users.email d;
         Users.col_username := Users.username d;
         Users.col_password := Users.password d;
         Users.col_role := Users.orElse (Users.role d) "user";
         Users.col_isActive := Users.orElse (Users.isActive d) true;
         Users.col_phone := Users.phone d |}.

Definition adaRow : Users.UserRow :=
  {| Service.id := 5;
     Service.columns :=
       {| Users.col_email := "ada@example.org";
          Users.col_username := Some "ada";
          Users.col_password := "hashed:old";
          Users.col_role := "user";
          Users.col_isActive := true;
          Users.col_phone := None |};
     Service.updatedAt := 0 |}.

Definition accounts : Service.World Users.UserColumns :=
  {| Service.table := [adaRow]; Service.calls := []; Service.now := 9 |}.

Definition body (e p : option string) : Users.PartialUserDTO :=
  {| Users.p_id := None;
     Users.p_email := e;
     Users.p_username := None;
     Users.p_password := p;
     Users.p_role := None;
     Users.p_isActive := None;
     Users.p_phone := None |}.

(** A request body that carries an [id] key and nothing else. *)
Definition rekey (j : Z) : Users.PartialUserDTO :=
  {| Users.p_id := Some j;
     Users.p_email := None;
     Users.p_username := None;
     Users.p_password := None;
     Users.p_role := None;
     Users.p_isActive := None;
     Users.p_phone := None |}.

(** [--auth=role --roles=admin,superadmin --public-routes=create] *)
Definition publicCreateWithRoles : Cli.CLIOptions :=
  {| Cli.entityName := "Comment";
     Cli.ownershipField := None;
     Cli.auth := Some role;
     Cli.publicRoutes := Some ["create"];
     Cli.disabledRoutes := Some ["getAll"; "purge"];
     Cli.roles := Some "admin,superadmin";
     Cli.hooks := Some "beforeCreate,afterCreate";
     Cli.withAdmin := false;
     Cli.withTests := true;
     Cli.skipMigration := false |}.

End MoreSamples.

Example article_context :
  let ctx := Samples.context_of Samples.article in
  (entityName ctx, EntityName ctx, entityNamePlural ctx, tableName ctx)
    = ("article", "Article", "articles", "articles")
  /\ (ownershipField ctx, ownershipFieldSnake ctx)
    = (Some "authorId", Some "author_id")
  /\ hooks ctx = ["beforeCreate"]
  /\ (needsAuth ctx, ownershipCheck ctx, hasPublicGetAll ctx) = (true, true, true).
Proof. vm_compute. repeat split. Qed.

Example pluralize_examples :
  map Naming.pluralize ["category"; "box"; "church"; "class"; "dish"; "user"]
  = ["categories"; "boxes"; "churches"; "classes"; "dishes"; "users"].
Proof. reflexivity. Qed.

Example split_examples :
  JS.split JS.comma "admin,superadmin" = ["admin"; "superadmin"]
  /\ JS.split JS.comma "a,,b," = ["a"; EmptyString; "b"; EmptyString]
  /\ JS.split JS.comma EmptyString = [EmptyString].
Proof. repeat split. Qed.

(* ================================================================== *)
(** * Properties of the JavaScript primitives *)
(* ================================================================== *)

Lemma includes_In (l : list string) (x : string) :
  JS.includes l x = true <-> In x l.
Proof.
  unfold JS.includes. rewrite existsb_exists. split.
  - intros [y [Hy Heq]]. apply String.eqb_eq in Heq. now subst.
  - intros H. exists x. split; [assumption | apply String.eqb_refl].
Qed.

Lemma includes_false_not_In (l : list string) (x : string) :
  JS.includes l x = false <-> ~ In x l.
Proof.
  rewrite <- includes_In. destruct (JS.includes l x); split; intros H;
    try reflexivity; try discriminate; try (intros H'; discriminate).
  exfalso. now apply H.
Qed.

Lemma truthy_Some (f : string) :
  JS.truthy (Some f) = true <-> f <> EmptyString.
Proof.
  unfold JS.truthy. rewrite negb_true_iff. split.
  - intros H ->. rewrite String.eqb_refl in H. discriminate.
  - intros H. now apply String.eqb_neq.
Qed.

Lemma or_str_truthy_left (a b : option string) :
  JS.truthy a = true -> JS.or_str a b = a.
Proof. unfold JS.or_str. now intros ->. Qed.

Lemma or_str_falsy_left (a b : option string) :
  JS.truthy a = false -> JS.or_str a b = b.
Proof. unfold JS.or_str. now intros ->. Qed.

Lemma cond_str_falsy (A : Type) (v : option string) (f : string -> A) (d : A) :
  JS.truthy v = false -> JS.cond_str v f d = d.
Proof.
  unfold JS.truthy, JS.cond_str. destruct v as [s|]; [|reflexivity].
  now intros ->.
Qed.

Lemma hb_if_array_or_array (A : Type) (l : list A) :
  JS.or_array (if JS.hb_if_array l then Some l else None) [] = l.
Proof. now destruct l. Qed.

(** [split] never returns the empty array. *)
Lemma split_nonempty (sep : ascii) (s : string) : JS.split sep s <> [].
Proof.
  destruct s as [|c rest]; simpl; [discriminate|].
  destruct (Ascii.eqb c sep); [discriminate|].
  destruct (JS.split sep rest); discriminate.
Qed.

(* ================================================================== *)
(** * Route decisions *)
(* ================================================================== *)

Section RouteFacts.

Variable pluralize : string -> string.
Variable toSnakeCase : string -> string.

Local Abbreviation context := (buildContext pluralize toSnakeCase).
Local Abbreviation plan := (routePlan pluralize toSnakeCase).

(** The lists of the options reach the factory unchanged. *)
Lemma routeTemplate_publicRoutes (ctx : TemplateContext) :
  JS.or_array (RouteFactory.publicRoutes (RouteFactory.routeTemplate ctx)) []
  = Scaffold.publicRoutes ctx.
Proof. apply hb_if_array_or_array. Qed.

Lemma routeTemplate_disabledRoutes (ctx : TemplateContext) :
  JS.or_array (RouteFactory.disabledRoutes (RouteFactory.routeTemplate ctx)) []
  = Scaffold.disabledRoutes ctx.
Proof. apply hb_if_array_or_array. Qed.

Lemma plan_emitted (options : Cli.CLIOptions) (k : RouteFactory.RouteKind) :
  RouteFactory.emitted (plan options k)
  = negb (JS.includes (JS.or_array (Cli.disabledRoutes options) [])
            (RouteFactory.routeName k)).
Proof.
  unfold routePlan, RouteFactory.routeDecision.
  cbv [RouteFactory.emitted]. now rewrite routeTemplate_disabledRoutes.
Qed.

Lemma plan_chain (options : Cli.CLIOptions) (k : RouteFactory.RouteKind) :
  RouteFactory.middlewareChain (plan options k)
  = (if RouteFactory.public (plan options k)
     then []
     else RouteFactory.authMiddleware
            (RouteFactory.routeTemplate (context options)))
    ++ (if RouteFactory.acceptsBody k then [RouteFactory.validate k] else []).
Proof. reflexivity. Qed.

Lemma needsAuth_spec (options : Cli.CLIOptions) :
  needsAuth (context options)
  = negb (JS.includes (JS.or_array (Cli.publicRoutes options) []) "create")
    && negb (AuthType_eqb (authType (context options)) none).
Proof. reflexivity. Qed.

(** With an auth type other than [none], [needsAuth] holds exactly
    when [create] is not listed as public. *)
Lemma needsAuth_iff (options : Cli.CLIOptions) :
  authType (context options) <> none ->
  needsAuth (context options) = true
  <-> ~ In "create" (JS.or_array (Cli.publicRoutes options) []).
Proof.
  intros Hauth. rewrite needsAuth_spec.
  destruct (authType (context options)); try contradiction;
    cbn [AuthType_eqb negb]; rewrite andb_true_r, negb_true_iff;
    (split; [intros H; now apply includes_false_not_In
            | intros H; now apply includes_false_not_In]).
Qed.

(** The route file passes [requireAuth] exactly when [needsAuth]
    holds. *)
Lemma configuredAuth_spec (options : Cli.CLIOptions) :
  RouteFactory.configuredAuth (RouteFactory.routeTemplate (context options))
  = if needsAuth (context options)
    then Some RouteFactory.requireAuth else None.
Proof.
  unfold RouteFactory.configuredAuth, RouteFactory.routeTemplate.
  cbv [RouteFactory.middleware RouteFactory.auth].
  change (hasMiddleware (context options))
    with (needsAuth (context options)
          || JS.defined (roles (context options))).
  destruct (needsAuth (context options)); [reflexivity|].
  now destruct (JS.defined (roles (context options))).
Qed.

(** A route is registered by [createCrudRoutes] exactly when its
    decision says [emitted]. *)
Lemma createCrudRoutes_emitted (cfg : RouteFactory.CrudRouteConfig)
  (k : RouteFactory.RouteKind) :
  In k (map fst (RouteFactory.createCrudRoutes cfg))
  <-> RouteFactory.emitted (RouteFactory.routeDecision cfg k) = true.
Proof.
  unfold RouteFactory.createCrudRoutes. rewrite in_map_iff. split.
  - intros [[j c] [Hfst Hin]]. simpl in Hfst. subst j.
    apply in_flat_map in Hin. destruct Hin as [j [_ Hj]].
    destruct (RouteFactory.emitted (RouteFactory.routeDecision cfg j)) eqn:E;
      simpl in Hj; [|contradiction].
    destruct Hj as [Hj|[]]. injection Hj as <- _. exact E.
  - intros E.
    exists (k, RouteFactory.middlewareChain (RouteFactory.routeDecision cfg k)).
    split; [reflexivity|]. apply in_flat_map. exists k. split.
    + unfold RouteFactory.allKinds. destruct k; simpl; tauto.
    + rewrite E. now left.
Qed.

(** C1 (as amended): with an auth type other than [none], the
    authentication requirement of the generated routes depends on
    [publicRoutes] through [create] alone.  [needsAuth] holds, and
    the route file passes [requireAuth], exactly when [create] is not
    listed; two option objects with the same auth type that agree on
    whether [create] is listed get the same requirement, whichever
    other kinds they list. *)
Theorem C1_auth_requirement_follows_create
  (options : Cli.CLIOptions)
  (Hauth : authType (context options) <> none) :
  (needsAuth (context options) = true
   <-> ~ In "create" (JS.or_array (Cli.publicRoutes options) []))
  /\ (RouteFactory.configuredAuth
        (RouteFactory.routeTemplate (context options))
      = Some RouteFactory.requireAuth
      <-> ~ In "create" (JS.or_array (Cli.publicRoutes options) []))
  /\ (forall options',
        Cli.auth options' = Cli.auth options ->
        (In "create" (JS.or_array (Cli.publicRoutes options') [])
         <-> In "create" (JS.or_array (Cli.publicRoutes options) [])) ->
        needsAuth (context options') = needsAuth (context options)
        /\ RouteFactory.configuredAuth
             (RouteFactory.routeTemplate (context options'))
           = RouteFactory.configuredAuth
               (RouteFactory.routeTemplate (context options))).
Proof.
  pose proof (needsAuth_iff options Hauth) as Hiff.
  split; [exact Hiff|]. split.
  - rewrite configuredAuth_spec, <- Hiff.
    destruct (needsAuth (context options)); split; congruence.
  - intros options' Hsame Hcreate.
    assert (Hn : needsAuth (context options') = needsAuth (context options)).
    { rewrite !needsAuth_spec.
      change (authType (context options'))
        with (match Cli.auth options' with Some a => a | None => none end).
      change (authType (context options))
        with (match Cli.auth options with Some a => a | None => none end).
      rewrite Hsame. f_equal. f_equal.
      rewrite <- !includes_In in Hcreate.
      destruct (JS.includes (JS.or_array (Cli.publicRoutes options') [])
                  "create"),
               (JS.includes (JS.or_array (Cli.publicRoutes options) [])
                  "create"); try reflexivity.
      - symmetry. now apply Hcreate.
      - now apply Hcreate. }
    split; [exact Hn|]. now rewrite !configuredAuth_spec, Hn.
Qed.

(** A route kind listed in [disabledRoutes] gets [emitted = false]. *)
Lemma disabled_not_emitted
  (options : Cli.CLIOptions) (k : RouteFactory.RouteKind) :
  In (RouteFactory.routeName k)
    (JS.or_array (Cli.disabledRoutes options) []) ->
  RouteFactory.emitted (plan options k) = false.
Proof.
  intros Hdis. rewrite plan_emitted. apply negb_false_iff.
  now apply includes_In.
Qed.

(** C5: a route kind listed in [disabledRoutes] is not emitted, and
    [createCrudRoutes] does not register it, whatever
    [publicRoutes] and the auth type are. *)
Theorem C5_disabled_route_not_emitted
  (options : Cli.CLIOptions) (k : RouteFactory.RouteKind)
  (Hdis : In (RouteFactory.routeName k)
            (JS.or_array (Cli.disabledRoutes options) [])) :
  RouteFactory.emitted (plan options k) = false
  /\ ~ In k (map fst (RouteFactory.createCrudRoutes
                        (RouteFactory.routeTemplate (context options)))).
Proof.
  pose proof (disabled_not_emitted options k Hdis) as He.
  split; [exact He|].
  rewrite createCrudRoutes_emitted. unfold routePlan in He.
  rewrite He. discriminate.
Qed.

End RouteFacts.


(** C1 (as stated) fails: with ownership auth, listing [create] in
    [publicRoutes] removes the authentication requirement.  Without
    the list [needsAuth] holds and the route file passes
    [requireAuth]; with it [needsAuth] is false and the route file
    passes no middleware at all. *)
Lemma C1_counterexample_public_create :
  RouteFactory.mutating RouteFactory.create = true
  /\ authType (Samples.context_of Samples.publicCreate) = ownership
  /\ In "create" (JS.or_array (Cli.publicRoutes Samples.publicCreate) [])
  /\ needsAuth (Samples.context_of Samples.protectedCreate) = true
  /\ RouteFactory.configuredAuth
       (RouteFactory.routeTemplate
          (Samples.context_of Samples.protectedCreate))
     = Some RouteFactory.requireAuth
  /\ needsAuth (Samples.context_of Samples.publicCreate) = false
  /\ RouteFactory.middleware
       (RouteFactory.routeTemplate (Samples.context_of Samples.publicCreate))
     = None.
Proof.
  repeat split; try reflexivity. simpl. now left.
Qed.

Lemma C1_witness_article :
  authType (Samples.context_of Samples.article) <> none
  /\ needsAuth (Samples.context_of Samples.article) = true
  /\ RouteFactory.configuredAuth
       (RouteFactory.routeTemplate (Samples.context_of Samples.article))
     = Some RouteFactory.requireAuth.
Proof.
  assert (Hauth : authType (Samples.context_of Samples.article) <> none)
    by discriminate.
  assert (Hnot : ~ In "create"
                   (JS.or_array (Cli.publicRoutes Samples.article) [])).
  { simpl. intros [H|[H|[]]]; discriminate. }
  destruct (C1_auth_requirement_follows_create
              Naming.pluralize Naming.toSnakeCase Samples.article Hauth)
    as [Hneeds [Hconf _]].
  split; [exact Hauth|].
  split; [now apply Hneeds | now apply Hconf].
Defined.

Lemma C5_witness_conflict_getAll :
  In (RouteFactory.routeName RouteFactory.getAll)
    (JS.or_array (Cli.disabledRoutes Samples.conflict) [])
  /\ RouteFactory.emitted
       (routePlan Naming.pluralize Naming.toSnakeCase
          Samples.conflict RouteFactory.getAll) = false.
Proof.
  assert (Hdis : In (RouteFactory.routeName RouteFactory.getAll)
                   (JS.or_array (Cli.disabledRoutes Samples.conflict) [])).
  { simpl. now left. }
  split; [exact Hdis|].
  exact (proj1 (C5_disabled_route_not_emitted
                  Naming.pluralize Naming.toSnakeCase
                  Samples.conflict RouteFactory.getAll Hdis)).
Defined.

(* ================================================================== *)
(** * Normalization and file generation *)
(* ================================================================== *)

Section GenerateFacts.

Variable pluralize : string -> string.
Variable toSnakeCase : string -> string.

Local Abbreviation context := (buildContext pluralize toSnakeCase).
Local Abbreviation files := (Render.generate pluralize toSnakeCase).

(** The names of the written files.  With [withTests] the test
    template throws and nothing is written; without it the five core
    files are written in the order of the [files] literal, then the
    optional ones. *)
Lemma generate_names (options : Cli.CLIOptions) :
  map Render.name (files options)
  = if Cli.withTests options
    then []
    else [Render.model; Render.dto; Render.service; Render.controller;
          Render.route]
         ++ Render.optional (Cli.withAdmin options) Render.adminRoute
         ++ Render.optional (negb (Cli.skipMigration options))
              Render.migration.
Proof.
  unfold Render.generate, Render.renderFiles.
  destruct (Cli.withAdmin options), (Cli.withTests options),
    (Cli.skipMigration options); reflexivity.
Qed.

(** The import edges between the written files. *)
Lemma generate_edges (options : Cli.CLIOptions) :
  Render.edges (files options)
  = if Cli.withTests options
    then []
    else [(Render.service, Render.model); (Render.service, Render.dto);
          (Render.controller, Render.service);
          (Render.route, Render.controller); (Render.route, Render.dto)]
         ++ Render.optional (Cli.withAdmin options)
              (Render.adminRoute, Render.model).
Proof.
  unfold Render.generate, Render.renderFiles.
  destruct (Cli.withAdmin options), (Cli.withTests options),
    (Cli.skipMigration options); reflexivity.
Qed.

(** The written files are a function of the context and of the
    three flags. *)
Lemma generate_from_context (options1 options2 : Cli.CLIOptions) :
  context options1 = context options2 ->
  Cli.withAdmin options1 = Cli.withAdmin options2 ->
  Cli.withTests options1 = Cli.withTests options2 ->
  Cli.skipMigration options1 = Cli.skipMigration options2 ->
  files options1 = files options2.
Proof.
  intros Hc Ha Ht Hs. unfold Render.generate, Render.renderFiles.
  now rewrite Hc, Ha, Ht, Hs.
Qed.

(** Every written file was rendered from the context [buildContext]
    returned. *)
Lemma writeAll_binding (ctx : TemplateContext) (entries : list Render.Entry) :
  forall written,
    (forall f, In f written -> Render.binding (Render.content f) = ctx) ->
    (forall k c, In (k, Some c) entries -> Render.binding c = ctx) ->
    forall f, In f (Render.writeAll ctx entries written) ->
              Render.binding (Render.content f) = ctx.
Proof.
  induction entries as [|[k [c|]] rest IH]; intros written Hw He f Hf;
    simpl in Hf.
  - now apply Hw.
  - apply (IH (written ++ [{| Render.name := k; Render.context := ctx;
                              Render.content := c |}])); try assumption.
    + intros g Hg. apply in_app_or in Hg. destruct Hg as [Hg|[<-|[]]].
      * now apply Hw.
      * simpl. apply (He k). now left.
    + intros k' c' H'. apply (He k'). now right.
  - apply (IH written); try assumption.
    intros k' c' H'. apply (He k'). now right.
Qed.

Lemma generate_binding (options : Cli.CLIOptions) (f : Render.WrittenFile) :
  In f (files options) ->
  Render.binding (Render.content f) = context options.
Proof.
  unfold Render.generate.
  destruct (Render.renderFiles pluralize toSnakeCase options)
    as [e|entries] eqn:Er; [intros []|].
  apply writeAll_binding.
  - intros g [].
  - intros k c Hin. unfold Render.renderFiles in Er.
    destruct (Cli.withAdmin options), (Cli.withTests options),
      (Cli.skipMigration options); simpl in Er;
      try discriminate Er; injection Er as <-; simpl in Hin;
      repeat (destruct Hin as [Hin|Hin];
              [first [discriminate Hin
                     | injection Hin as _ <-; reflexivity]|]);
      contradiction.
Qed.

End GenerateFacts.

Section NormalizerFacts.

Variable pluralize : string -> string.
Variable toSnakeCase : string -> string.

Local Abbreviation context := (buildContext pluralize toSnakeCase).
Local Abbreviation files := (Render.generate pluralize toSnakeCase).
Local Abbreviation normalized := (normalize pluralize toSnakeCase).
Local Abbreviation plan := (routePlan pluralize toSnakeCase).

(** [buildContext] never reports a configuration error. *)
Lemma normalize_total (options : Cli.CLIOptions) (message : string) :
  normalized options <> Render.ConfigurationError message.
Proof. discriminate. Qed.

(** C2 (as amended): [buildContext] does not validate the route
    lists.  When a route kind is listed both in [publicRoutes] and in
    [disabledRoutes], it returns a context that carries both lists
    as they were given, the route plan marks the route as not
    emitted ("disabled" wins without an error), and the rendering
    block, run without [withTests], writes the five core files and
    the optional ones asked for. *)
Theorem C2_public_and_disabled_is_accepted
  (options : Cli.CLIOptions) (k : RouteFactory.RouteKind)
  (Hpub : In (RouteFactory.routeName k)
            (JS.or_array (Cli.publicRoutes options) []))
  (Hdis : In (RouteFactory.routeName k)
            (JS.or_array (Cli.disabledRoutes options) [])) :
  normalized options = Render.Normalized (context options)
  /\ Scaffold.publicRoutes (context options)
     = JS.or_array (Cli.publicRoutes options) []
  /\ Scaffold.disabledRoutes (context options)
     = JS.or_array (Cli.disabledRoutes options) []
  /\ In (RouteFactory.routeName k) (Scaffold.publicRoutes (context options))
  /\ In (RouteFactory.routeName k) (Scaffold.disabledRoutes (context options))
  /\ RouteFactory.emitted (plan options k) = false
  /\ (Cli.withTests options = false ->
      map Render.name (files options)
      = [Render.model; Render.dto; Render.service; Render.controller;
         Render.route]
        ++ Render.optional (Cli.withAdmin options) Render.adminRoute
        ++ Render.optional (negb (Cli.skipMigration options))
             Render.migration).
Proof.
  split; [reflexivity|]. split; [reflexivity|]. split; [reflexivity|].
  split; [exact Hpub|]. split; [exact Hdis|].
  split; [now apply disabled_not_emitted|].
  intros Htests. now rewrite generate_names, Htests.
Qed.

(** C6 (as amended): [buildContext] does not validate the roles.
    With [auth = role] and no (or an empty) [roles] option it returns
    a context with [authType = role] and [roles] undefined, and the
    route file configures no role middleware. *)
Theorem C6_role_without_roles_is_accepted
  (options : Cli.CLIOptions)
  (Hrole : Cli.auth options = Some role)
  (Hempty : JS.truthy (Cli.roles options) = false) :
  normalized options = Render.Normalized (context options)
  /\ authType (context options) = role
  /\ Scaffold.roles (context options) = None
  /\ (forall m,
        RouteFactory.middleware (RouteFactory.routeTemplate (context options))
        = Some m ->
        RouteFactory.role m = None).
Proof.
  assert (Hroles : Scaffold.roles (context options) = None).
  { change (JS.cond_str (Cli.roles options)
              (fun r => Some (JS.split JS.comma r)) None = None).
    now apply cond_str_falsy. }
  repeat split.
  - change (match Cli.auth options with Some a => a | None => none end = role).
    now rewrite Hrole.
  - exact Hroles.
  - intros m. unfold RouteFactory.routeTemplate.
    cbv [RouteFactory.middleware].
    destruct (hasMiddleware (context options)); [|discriminate].
    intros Hm. injection Hm as <-.
    cbv [RouteFactory.role]. now rewrite cond_str_falsy by exact Hempty.
Qed.

Lemma ownershipField_spec (options : Cli.CLIOptions) :
  ownershipField (context options)
  = JS.or_str (Cli.ownershipField options)
      (match Cli.auth options with
       | Some ownership => Some "userId"
       | _ => None
       end).
Proof. reflexivity. Qed.

(** C7 (as amended): the normalized [ownershipField] is the supplied
    value when a non-empty one is given; when none is given or the
    given one is the empty string, it is ["userId"] for
    [auth = ownership] and undefined for any other auth type.  Every
    file is rendered from the context that holds this value. *)
Theorem C7_ownershipField_defaulting (options : Cli.CLIOptions) :
  (forall f, Cli.ownershipField options = Some f -> f <> EmptyString ->
             ownershipField (context options) = Some f)
  /\ (JS.truthy (Cli.ownershipField options) = false ->
      Cli.auth options = Some ownership ->
      ownershipField (context options) = Some "userId")
  /\ (JS.truthy (Cli.ownershipField options) = false ->
      Cli.auth options <> Some ownership ->
      ownershipField (context options) = None)
  /\ (forall file, In file (files options) ->
        ownershipField (Render.binding (Render.content file))
        = ownershipField (context options)).
Proof.
  repeat split.
  - intros f Hf Hne. rewrite ownershipField_spec, Hf.
    apply or_str_truthy_left. now apply truthy_Some.
  - intros Hfalsy Hauth. rewrite ownershipField_spec, Hauth.
    now rewrite or_str_falsy_left.
  - intros Hfalsy Hauth. rewrite ownershipField_spec.
    rewrite or_str_falsy_left by assumption.
    destruct (Cli.auth options) as [[]|]; try reflexivity.
    now contradiction Hauth.
  - intros file Hin. now rewrite (generate_binding _ _ _ _ Hin).
Qed.

(** C8: the plan is a function of the normalized configuration and
    of the three flags.  Two runs of the pipeline on options with the
    same context and the same flags (on identical options, for one)
    end with the same files, rendered from the same context, in the
    same order and with the same import edges; the order and the
    edges are the ones listed here. *)
Theorem C8_plan_determined_by_config
  (options1 options2 : Cli.CLIOptions)
  (Hcontext : context options1 = context options2)
  (Hadmin : Cli.withAdmin options1 = Cli.withAdmin options2)
  (Htests : Cli.withTests options1 = Cli.withTests options2)
  (Hskip : Cli.skipMigration options1 = Cli.skipMigration options2) :
  files options1 = files options2
  /\ map Render.name (files options2)
     = (if Cli.withTests options1
        then []
        else [Render.model; Render.dto; Render.service; Render.controller;
              Render.route]
             ++ Render.optional (Cli.withAdmin options1) Render.adminRoute
             ++ Render.optional (negb (Cli.skipMigration options1))
                  Render.migration)
  /\ Render.edges (files options2)
     = (if Cli.withTests options1
        then []
        else [(Render.service, Render.model); (Render.service, Render.dto);
              (Render.controller, Render.service);
              (Render.route, Render.controller); (Render.route, Render.dto)]
             ++ Render.optional (Cli.withAdmin options1)
                  (Render.adminRoute, Render.model)).
Proof.
  split; [now apply generate_from_context|]. split.
  - now rewrite generate_names, Hadmin, Htests, Hskip.
  - now rewrite generate_edges, Hadmin, Htests.
Qed.

(** C4 (what the code does): with [auth = ownership] the context
    says [ownershipCheck] and the ownership field is set, so the
    generated controller overrides [create] to inject that field from
    the caller's id; but the auth configuration the generated
    constructor passes has no entry for [create], [update] or
    [delete]: no route gets an ownership check. *)
Theorem C4_generated_controller_has_no_ownership_check
  (options : Cli.CLIOptions)
  (Hown : Cli.auth options = Some ownership) :
  Scaffold.ownershipCheck (context options) = true
  /\ ControllerFile.authArgument
       (ControllerFile.controllerTemplate (context options))
     = Some {| ControllerFile.create := None;
               ControllerFile.update := None;
               ControllerFile.delete := None |}
  /\ exists field,
       field <> EmptyString
       /\ ownershipField (context options) = Some field
       /\ ControllerFile.createOverride
            (ControllerFile.controllerTemplate (context options))
          = Some field.
Proof.
  assert (Hauth : authType (context options) = ownership).
  { change (match Cli.auth options with Some a => a | None => none end
            = ownership). now rewrite Hown. }
  split; [|split].
  - change (AuthType_eqb (authType (context options)) ownership = true).
    now rewrite Hauth.
  - unfold ControllerFile.controllerTemplate.
    cbv [ControllerFile.authArgument].
    change (hasAuthConfig (context options))
      with (negb (AuthType_eqb (authType (context options)) none)).
    now rewrite Hauth.
  - assert (Hfield : exists field,
              field <> EmptyString
              /\ ownershipField (context options) = Some field).
    { rewrite ownershipField_spec, Hown. unfold JS.or_str.
      destruct (Cli.ownershipField options) as [[|c f]|];
        cbn; eexists; (split; [|reflexivity]); discriminate. }
    destruct Hfield as [field [Hne Hfield]].
    exists field. split; [exact Hne|]. split; [exact Hfield|].
    unfold ControllerFile.controllerTemplate, ControllerFile.fieldText.
    cbv [ControllerFile.createOverride].
    change (needsCreateOverride (context options))
      with (JS.truthy (ownershipField (context options))).
    rewrite Hfield. destruct field; [contradiction|reflexivity].
Qed.

End NormalizerFacts.

(** C2 (as stated) fails: with [getAll] listed as public and as
    disabled, [buildContext] returns a context, no configuration
    error, and six files are written. *)
Lemma C2_counterexample_conflict_accepted :
  In "getAll" (JS.or_array (Cli.publicRoutes Samples.conflict) [])
  /\ In "getAll" (JS.or_array (Cli.disabledRoutes Samples.conflict) [])
  /\ normalize Naming.pluralize Naming.toSnakeCase Samples.conflict
     = Render.Normalized (Samples.context_of Samples.conflict)
  /\ (forall message,
        normalize Naming.pluralize Naming.toSnakeCase Samples.conflict
        <> Render.ConfigurationError message)
  /\ map Render.name
       (Render.generate Naming.pluralize Naming.toSnakeCase Samples.conflict)
     = [Render.model; Render.dto; Render.service; Render.controller;
        Render.route; Render.migration].
Proof.
  repeat split; try reflexivity.
  - simpl. now left.
  - simpl. now left.
  - discriminate.
Qed.

Lemma C2_witness_conflict :
  (In (RouteFactory.routeName RouteFactory.getAll)
     (JS.or_array (Cli.publicRoutes Samples.conflict) [])
   /\ In (RouteFactory.routeName RouteFactory.getAll)
        (JS.or_array (Cli.disabledRoutes Samples.conflict) []))
  /\ RouteFactory.emitted
       (routePlan Naming.pluralize Naming.toSnakeCase
          Samples.conflict RouteFactory.getAll) = false.
Proof.
  assert (Hpub : In (RouteFactory.routeName RouteFactory.getAll)
                   (JS.or_array (Cli.publicRoutes Samples.conflict) [])).
  { simpl. now left. }
  assert (Hdis : In (RouteFactory.routeName RouteFactory.getAll)
                   (JS.or_array (Cli.disabledRoutes Samples.conflict) [])).
  { simpl. now left. }
  split; [split; assumption|].
  destruct (C2_public_and_disabled_is_accepted
              Naming.pluralize Naming.toSnakeCase
              Samples.conflict RouteFactory.getAll Hpub Hdis)
    as [_ [_ [_ [_ [_ [Hemitted _]]]]]].
  exact Hemitted.
Defined.

(** C6 (as stated) fails: [--auth=role] without roles is normalized,
    with [authType = role] and [roles] undefined. *)
Lemma C6_counterexample_role_without_roles :
  Cli.auth Samples.roleWithoutRoles = Some role
  /\ Cli.roles Samples.roleWithoutRoles = None
  /\ normalize Naming.pluralize Naming.toSnakeCase Samples.roleWithoutRoles
     = Render.Normalized (Samples.context_of Samples.roleWithoutRoles)
  /\ (forall message,
        normalize Naming.pluralize Naming.toSnakeCase Samples.roleWithoutRoles
        <> Render.ConfigurationError message)
  /\ authType (Samples.context_of Samples.roleWithoutRoles) = role
  /\ Scaffold.roles (Samples.context_of Samples.roleWithoutRoles) = None.
Proof. repeat split; try reflexivity. discriminate. Qed.

Lemma C6_witness_role_without_roles :
  (Cli.auth Samples.roleWithoutRoles = Some role
   /\ JS.truthy (Cli.roles Samples.roleWithoutRoles) = false)
  /\ Scaffold.roles (Samples.context_of Samples.roleWithoutRoles) = None.
Proof.
  split; [split; reflexivity|].
  apply (C6_role_without_roles_is_accepted
           Naming.pluralize Naming.toSnakeCase
           Samples.roleWithoutRoles eq_refl eq_refl).
Defined.

(** C7 (as stated) fails: an ownership field given as the empty
    string is not kept; with [auth = ownership] it becomes
    ["userId"]. *)
Lemma C7_counterexample_empty_field :
  Cli.ownershipField Samples.emptyOwnershipField = Some EmptyString
  /\ ownershipField (Samples.context_of Samples.emptyOwnershipField)
     = Some "userId"
  /\ ownershipField (Samples.context_of Samples.emptyOwnershipField)
     <> Cli.ownershipField Samples.emptyOwnershipField.
Proof. repeat split; try reflexivity. discriminate. Qed.

Lemma C7_witness_article :
  (Cli.ownershipField Samples.article = Some "authorId"
   /\ "authorId" <> EmptyString)
  /\ ownershipField (Samples.context_of Samples.article) = Some "authorId".
Proof.
  assert (Hne : "authorId" <> EmptyString) by discriminate.
  split; [split; [reflexivity | exact Hne]|].
  exact (proj1 (C7_ownershipField_defaulting
                  Naming.pluralize Naming.toSnakeCase Samples.article)
           "authorId" eq_refl Hne).
Defined.

Lemma C8_witness_category :
  (Samples.context_of (Samples.readOnly "category")
   = Samples.context_of (Samples.readOnly "Category")
   /\ Cli.withAdmin (Samples.readOnly "category")
      = Cli.withAdmin (Samples.readOnly "Category")
   /\ Cli.withTests (Samples.readOnly "category")
      = Cli.withTests (Samples.readOnly "Category")
   /\ Cli.skipMigration (Samples.readOnly "category")
      = Cli.skipMigration (Samples.readOnly "Category"))
  /\ Samples.readOnly "category" <> Samples.readOnly "Category"
  /\ Render.generate Naming.pluralize Naming.toSnakeCase
       (Samples.readOnly "category")
     = Render.generate Naming.pluralize Naming.toSnakeCase
         (Samples.readOnly "Category")
  /\ Render.edges
       (Render.generate Naming.pluralize Naming.toSnakeCase
          (Samples.readOnly "Category"))
     = [(Render.service, Render.model); (Render.service, Render.dto);
        (Render.controller, Render.service);
        (Render.route, Render.controller); (Render.route, Render.dto);
        (Render.adminRoute, Render.model)].
Proof.
  assert (Hcontext : Samples.context_of (Samples.readOnly "category")
                     = Samples.context_of (Samples.readOnly "Category"))
    by reflexivity.
  split; [repeat split; exact Hcontext|].
  split; [discriminate|].
  destruct (@C8_plan_determined_by_config
              Naming.pluralize Naming.toSnakeCase
              (Samples.readOnly "category") (Samples.readOnly "Category")
              Hcontext eq_refl eq_refl eq_refl)
    as [Hfiles [_ Hedges]].
  split; [exact Hfiles | exact Hedges].
Defined.

(** The article options ask for the test file: the test template
    throws, and no file is written.  Without [withTests] the files
    come in the order of the [files] literal. *)
Example article_plan :
  Render.generate Naming.pluralize Naming.toSnakeCase Samples.article = []
  /\ map Render.name
       (Render.generate Naming.pluralize Naming.toSnakeCase
          (Samples.readOnly "Category"))
     = [Render.model; Render.dto; Render.service; Render.controller;
        Render.route; Render.adminRoute; Render.migration].
Proof. split; reflexivity. Qed.

Lemma C4_witness_comment :
  Cli.auth Samples.protectedCreate = Some ownership
  /\ ControllerFile.authArgument
       (ControllerFile.controllerTemplate
          (Samples.context_of Samples.protectedCreate))
     = Some {| ControllerFile.create := None;
               ControllerFile.update := None;
               ControllerFile.delete := None |}
  /\ ControllerFile.createOverride
       (ControllerFile.controllerTemplate
          (Samples.context_of Samples.protectedCreate))
     = Some "userId".
Proof.
  split; [reflexivity|].
  destruct (@C4_generated_controller_has_no_ownership_check
              Naming.pluralize Naming.toSnakeCase Samples.protectedCreate
              eq_refl)
    as [_ [Hargument _]].
  split; [exact Hargument | reflexivity].
Defined.

(** The controller generated from the article options against the
    hand-written one: the same [create] override, but none of the
    ownership checks on [update] and [delete]. *)
Example generated_article_controller :
  let generated :=
    ControllerFile.controllerTemplate (Samples.context_of Samples.article) in
  ControllerFile.createOverride generated
  = ControllerFile.createOverride ControllerFile.articleController
  /\ ControllerFile.authArgument generated
     = Some {| ControllerFile.create := None;
               ControllerFile.update := None;
               ControllerFile.delete := None |}
  /\ ControllerFile.authArgument generated
     <> ControllerFile.authArgument ControllerFile.articleController.
Proof. repeat split; try reflexivity. discriminate. Qed.

(* ================================================================== *)
(** * Authorization rules *)
(* ================================================================== *)

(** The three update cases of the generated test file under
    ownership auth: the owner is allowed, another user is forbidden,
    a superadmin is allowed. *)
Example checkAuth_article_update :
  let rule := Samples.ownerRule in
  let owner := {| Controller.id := 5; Controller.userRole := "user" |} in
  let other := {| Controller.id := 6; Controller.userRole := "user" |} in
  let admin := {| Controller.id := 1; Controller.userRole := "superadmin" |} in
  snd (Controller.checkAuth rule owner 5 true) = Controller.Allowed
  /\ snd (Controller.checkAuth rule other 5 true)
     = Controller.Forbidden Controller.OwnershipCheck
  /\ snd (Controller.checkAuth rule admin 5 true) = Controller.Allowed.
Proof. repeat split; reflexivity. Qed.

(** Whatever the other flags are, the evaluation of a rule that
    carries the bypass starts with the bypass check. *)
Lemma checkAuth_starts_with (rule : Controller.AuthRule)
  (user : Controller.User) (owner : Z) (customOk : bool) :
  Controller.superadminBypass rule = true ->
  exists rest,
    fst (Controller.checkAuth rule user owner customOk)
    = Controller.BypassCheck :: rest.
Proof.
  intros Hb. unfold Controller.checkAuth. rewrite Hb.
  destruct (Controller.userRole user =? "superadmin")%string;
    [now exists []|].
  destruct (Controller.roles rule) as [|r rs].
  - destruct (Controller.ownershipCheck rule), (owner =? Controller.id user)%Z,
      (Controller.customCheck rule); simpl; eexists; reflexivity.
  - destruct (JS.includes (r :: rs) (Controller.userRole user)),
      (Controller.ownershipCheck rule), (owner =? Controller.id user)%Z,
      (Controller.customCheck rule); simpl; eexists; reflexivity.
Qed.

(** C3: when a rule carries the superadmin bypass, the bypass is the
    first check evaluated, and for a superadmin it is the only one:
    the request is allowed whatever roles, ownership check and custom
    check the rule also carries and whatever their outcome would be;
    two rules that agree on the bypass flag treat a superadmin
    alike. *)
Theorem C3_superadmin_bypass_first
  (rule : Controller.AuthRule) (user : Controller.User)
  (owner : Z) (customOk : bool)
  (Hbypass : Controller.superadminBypass rule = true) :
  hd_error (fst (Controller.checkAuth rule user owner customOk))
  = Some Controller.BypassCheck
  /\ (Controller.userRole user = "superadmin" ->
      Controller.checkAuth rule user owner customOk
      = ([Controller.BypassCheck], Controller.Allowed))
  /\ (forall rule' owner' customOk',
        Controller.superadminBypass rule' = Controller.superadminBypass rule ->
        Controller.userRole user = "superadmin" ->
        Controller.checkAuth rule' user owner' customOk'
        = Controller.checkAuth rule user owner customOk).
Proof.
  split; [|split].
  - destruct (checkAuth_starts_with rule user owner customOk Hbypass)
      as [rest ->].
    reflexivity.
  - intros Hsuper. unfold Controller.checkAuth.
    rewrite Hbypass, Hsuper. reflexivity.
  - intros rule' owner' customOk' Hsame Hsuper. unfold Controller.checkAuth.
    rewrite Hsame, Hbypass, Hsuper. reflexivity.
Qed.

Lemma C3_witness_article_delete :
  Controller.superadminBypass Samples.ownerRule = true
  /\ Controller.checkAuth Samples.ownerRule
       {| Controller.id := 1; Controller.userRole := "superadmin" |}
       2 false
     = ([Controller.BypassCheck], Controller.Allowed).
Proof.
  split; [reflexivity|].
  exact (proj1 (proj2
           (C3_superadmin_bypass_first
              Samples.ownerRule
              {| Controller.id := 1; Controller.userRole := "superadmin" |}
              2 false eq_refl))
           eq_refl).
Defined.

(* ================================================================== *)
(** * BaseService.update and BaseService.delete *)
(* ================================================================== *)

Arguments Service.Thrown {Columns A} error w.

Section ServiceFacts.

Variable Columns : Type.
Variable UpdateDTO : Type.
Variable setColumns : UpdateDTO -> Columns -> Columns.
Variable dtoId : UpdateDTO -> option Z.
Variable hooks : Service.Hooks Columns UpdateDTO.

Local Abbreviation Row := (Service.Row Columns).
Local Abbreviation World := (Service.World Columns).

Lemma existsb_filter_length (A : Type) (f : A -> bool) (l : list A) :
  (0 <? List.length (filter f l))%nat = existsb f l.
Proof.
  induction l as [|x l IH]; simpl; [reflexivity|].
  destruct (f x); simpl; [reflexivity | exact IH].
Qed.

Lemma filter_none (A : Type) (f : A -> bool) (l : list A) :
  existsb f l = false -> filter f l = [].
Proof.
  induction l as [|x l IH]; simpl; [reflexivity|].
  destruct (f x); simpl; [discriminate | exact IH].
Qed.

Lemma filter_negb_all (A : Type) (f : A -> bool) (l : list A) :
  existsb f l = false -> filter (fun x => negb (f x)) l = l.
Proof.
  induction l as [|x l IH]; simpl; [reflexivity|].
  destruct (f x); simpl; [discriminate|]. intros H. now rewrite IH.
Qed.

Lemma existsb_hasId (i : Z) (t : list Row) :
  existsb (Service.hasId i) t = true
  <-> exists r, In r t /\ Service.id r = i.
Proof.
  rewrite existsb_exists. unfold Service.hasId.
  split; intros [r [Hin Hr]]; exists r; split; try assumption.
  - now apply Z.eqb_eq.
  - now apply Z.eqb_eq.
Qed.

(** The hooks recorded by the first statement of [delete]. *)
Lemma delete_before_calls (i : Z) (w w1 : World) :
  Service.delete_before hooks i w = Service.Returned tt w1 ->
  Service.calls w1
  = Service.calls w
    ++ Render.optional (JS.defined (Service.hook_beforeDelete hooks))
         Service.beforeDelete
  /\ (Service.hook_beforeDelete hooks = None -> w1 = w).
Proof.
  unfold Service.delete_before.
  destruct (Service.hook_beforeDelete hooks) as [h|]; simpl.
  - unfold Service.invoke. destruct (h i (Service.table w)) as [[e|[]] t];
      [discriminate|].
    intros H. injection H as <-. simpl. split; [reflexivity | discriminate].
  - unfold Service.ret. intros H. injection H as <-.
    split; [now rewrite app_nil_r | reflexivity].
Qed.

(** [beforeDelete], when implemented, is called whether [delete]
    returns or throws and whether or not the record exists. *)
Lemma delete_calls_before_first (i : Z) (w : World)
  (h : Z -> Service.HookBody Columns unit) :
  Service.hook_beforeDelete hooks = Some h ->
  exists rest,
    Service.calls
      match Service.delete hooks i w with
      | Service.Returned _ w' => w'
      | Service.Thrown _ w' => w'
      end
    = Service.calls w ++ Service.beforeDelete :: rest.
Proof.
  intros Hh. unfold Service.delete, Service.bind, Service.delete_before.
  rewrite Hh. unfold Service.invoke.
  destruct (h i (Service.table w)) as [[e|[]] t]; simpl.
  - exists []. reflexivity.
  - destruct (Service.hook_afterDelete hooks) as [a|]; simpl.
    + destruct (0 <? _)%nat; simpl.
      * destruct (a i _) as [[e|[]] t']; simpl;
          exists [Service.afterDelete]; now rewrite <- app_assoc.
      * exists []. reflexivity.
    + exists []. reflexivity.
Qed.

(** C9: when the [beforeDelete] step returns and [afterDelete] does not
    throw, [delete] returns [true] exactly when a row with that id
    was in the table, and the DELETE leaves the rows with another id;
    [beforeDelete] (when implemented) is called in either case,
    [afterDelete] (when implemented) exactly when the result is
    [true]. *)
Theorem C9_delete_result_and_hooks
  (i : Z) (w w1 : World)
  (Hbefore : Service.delete_before hooks i w = Service.Returned tt w1)
  (Hafter : forall a t, Service.hook_afterDelete hooks = Some a ->
                        exists t', a i t = (inr tt, t')) :
  exists w2,
    Service.delete hooks i w
    = Service.Returned (existsb (Service.hasId i) (Service.table w1)) w2
    /\ (existsb (Service.hasId i) (Service.table w1) = true
        <-> exists r, In r (Service.table w1) /\ Service.id r = i)
    /\ Service.calls w2
       = Service.calls w
         ++ Render.optional (JS.defined (Service.hook_beforeDelete hooks))
              Service.beforeDelete
         ++ Render.optional
              (JS.defined (Service.hook_afterDelete hooks)
               && existsb (Service.hasId i) (Service.table w1))
              Service.afterDelete
    /\ Service.table w2
       = (let remaining :=
            filter (fun r => negb (Service.hasId i r)) (Service.table w1) in
          match Service.hook_afterDelete hooks with
          | Some a =>
              if existsb (Service.hasId i) (Service.table w1)
              then snd (a i remaining)
              else remaining
          | None => remaining
          end)
    /\ (existsb (Service.hasId i) (Service.table w1) = false ->
        Service.table w2 = Service.table w1).
Proof.
  destruct (delete_before_calls i w Hbefore) as [Hcalls _].
  pose proof (existsb_hasId i (Service.table w1)) as Hiff.
  unfold Service.delete, Service.bind. rewrite Hbefore.
  unfold Service.dbDelete. rewrite existsb_filter_length.
  destruct (Service.hook_afterDelete hooks) as [a|] eqn:Ha;
    destruct (existsb (Service.hasId i) (Service.table w1)) eqn:Hex;
    simpl.
  - destruct (Hafter a (filter (fun r => negb (Service.hasId i r))
                          (Service.table w1)) eq_refl) as [t' Ht'].
    unfold Service.invoke. simpl. rewrite Ht'.
    eexists. split; [reflexivity|]. simpl.
    rewrite Hcalls, <- app_assoc.
    split; [exact Hiff|]. split; [reflexivity|].
    split; [reflexivity | discriminate].
  - eexists. split; [reflexivity|]. simpl.
    rewrite Hcalls, app_nil_r.
    split; [exact Hiff|]. split; [reflexivity|].
    split; [reflexivity|]. intros _. now apply filter_negb_all.
  - eexists. split; [reflexivity|]. simpl.
    rewrite Hcalls, app_nil_r.
    split; [exact Hiff|]. split; [reflexivity|].
    split; [reflexivity | discriminate].
  - eexists. split; [reflexivity|]. simpl.
    rewrite Hcalls, app_nil_r.
    split; [exact Hiff|]. split; [reflexivity|].
    split; [reflexivity|]. intros _. now apply filter_negb_all.
Qed.

(** The hooks recorded by the first statement of [update]. *)
Lemma update_before_calls (i : Z) (data data' : UpdateDTO) (w w1 : World) :
  Service.update_before hooks i data w = Service.Returned data' w1 ->
  Service.calls w1
  = Service.calls w
    ++ Render.optional (JS.defined (Service.hook_beforeUpdate hooks))
         Service.beforeUpdate
  /\ (Service.hook_beforeUpdate hooks = None -> w1 = w /\ data' = data).
Proof.
  unfold Service.update_before.
  destruct (Service.hook_beforeUpdate hooks) as [h|]; simpl.
  - unfold Service.invoke.
    destruct (h i data (Service.table w)) as [[e|d] t]; [discriminate|].
    intros H. injection H as _ <-. simpl.
    split; [reflexivity | discriminate].
  - unfold Service.ret. intros H. injection H as <- <-.
    split; [now rewrite app_nil_r | now split].
Qed.

(** An UPDATE that matches no row returns no row and leaves the
    table as it is, whatever the data. *)
Lemma dbUpdate_missing (i : Z) (data : UpdateDTO) (w : World) :
  existsb (Service.hasId i) (Service.table w) = false ->
  Service.dbUpdate setColumns dtoId i data w = Service.Returned [] w.
Proof.
  intros Hmissing. unfold Service.dbUpdate, Service.collides.
  rewrite (filter_none _ _ Hmissing), (filter_negb_all _ _ Hmissing).
  cbn [map]. rewrite app_nil_r.
  destruct (dtoId data); now destruct w.
Qed.

(** C10: when the [beforeUpdate] step returns and no row has the id,
    [update] returns [null] and leaves the world as that step left
    it: no row is changed and [afterUpdate] is not called, while
    [beforeUpdate] (when implemented) was. *)
Theorem C10_update_of_missing_record
  (i : Z) (data data' : UpdateDTO) (w w1 : World)
  (Hbefore : Service.update_before hooks i data w
             = Service.Returned data' w1)
  (Hmissing : existsb (Service.hasId i) (Service.table w1) = false) :
  Service.update setColumns dtoId hooks i data w = Service.Returned None w1
  /\ Service.calls w1
     = Service.calls w
       ++ Render.optional (JS.defined (Service.hook_beforeUpdate hooks))
            Service.beforeUpdate
  /\ ~ In Service.afterUpdate
         (Render.optional (JS.defined (Service.hook_beforeUpdate hooks))
            Service.beforeUpdate)
  /\ (Service.hook_beforeUpdate hooks = None ->
      Service.update setColumns dtoId hooks i data w
      = Service.Returned None w).
Proof.
  destruct (update_before_calls i data w Hbefore) as [Hcalls Hnone].
  assert (Hresult : Service.update setColumns dtoId hooks i data w
                    = Service.Returned None w1).
  { unfold Service.update, Service.bind. rewrite Hbefore.
    now rewrite (dbUpdate_missing i data' w1 Hmissing). }
  repeat split.
  - exact Hresult.
  - exact Hcalls.
  - destruct (Service.hook_beforeUpdate hooks); simpl;
      [intros [H|[]]; discriminate | intros []].
  - intros Hundef. destruct (Hnone Hundef) as [<- _]. exact Hresult.
Qed.

End ServiceFacts.

Import ServiceSamples.

(** "should only call afterDelete on successful deletion" and
    "should execute beforeDelete and afterDelete hooks". *)
Example delete_with_hooks :
  Service.delete testHooks 999 (world three [])
  = Service.Returned false (world three [Service.beforeDelete])
  /\ Service.delete testHooks 2 (world three [])
     = Service.Returned true
         (world [entity 1 "Entity 1"; entity 3 "Entity 3"]
            [Service.beforeDelete; Service.afterDelete]).
Proof. split; reflexivity. Qed.

(** "should return null when record does not exist" and "should
    execute beforeUpdate and afterUpdate hooks"; the updated row is
    the last one of the table afterwards. *)
Example update_with_hooks :
  Service.update setName noId noHooks 999 "Updated" (world three [])
  = Service.Returned None (world three [])
  /\ Service.update setName noId testHooks 999 "Updated" (world three [])
     = Service.Returned None (world three [Service.beforeUpdate])
  /\ Service.update setName noId testHooks 2 "Updated" (world three [])
     = Service.Returned
         (Some {| Service.id := 2; Service.columns := "Updated";
                  Service.updatedAt := 7 |})
         (world [entity 1 "Entity 1";
                 entity 3 "Entity 3";
                 {| Service.id := 2; Service.columns := "Updated";
                    Service.updatedAt := 7 |}]
            [Service.beforeUpdate; Service.afterUpdate]).
Proof. repeat split; reflexivity. Qed.

Lemma C9_witness_delete_existing :
  (Service.delete_before testHooks 2 (world three [])
   = Service.Returned tt (world three [Service.beforeDelete])
   /\ (forall a t, Service.hook_afterDelete testHooks = Some a ->
                   exists t', a 2%Z t = (inr tt, t')))
  /\ exists w2,
       Service.delete testHooks 2 (world three [])
       = Service.Returned
           (existsb (Service.hasId 2)
              (Service.table (world three [Service.beforeDelete]))) w2.
Proof.
  assert (Hbefore : Service.delete_before testHooks 2 (world three [])
                    = Service.Returned tt (world three [Service.beforeDelete]))
    by reflexivity.
  assert (Hafter : forall a t, Service.hook_afterDelete testHooks = Some a ->
                               exists t', a 2%Z t = (inr tt, t')).
  { intros a t Ha. injection Ha as <-. now exists t. }
  split; [split; assumption|].
  destruct (@C9_delete_result_and_hooks string string testHooks 2
              (world three []) (world three [Service.beforeDelete])
              Hbefore Hafter) as [w2 [Hdel _]].
  exists w2. exact Hdel.
Defined.

Lemma C10_witness_update_missing :
  (Service.update_before testHooks 999 "Updated" (world three [])
   = Service.Returned "Updated" (world three [Service.beforeUpdate])
   /\ existsb (Service.hasId 999)
        (Service.table (world three [Service.beforeUpdate])) = false)
  /\ Service.update setName noId testHooks 999 "Updated" (world three [])
     = Service.Returned None (world three [Service.beforeUpdate]).
Proof.
  split; [split; reflexivity|].
  apply (@C10_update_of_missing_record string string setName noId testHooks
           999 "Updated" "Updated" (world three [])
           (world three [Service.beforeUpdate]) eq_refl eq_refl).
Defined.

(* ================================================================== *)
(** * Slugs *)
(* ================================================================== *)

Example generateSlug_examples :
  map Slug.generateSlug
    ["Hello World"; "  Rocq & Coq -- 2024  "; "snake_case Title";
     "! hello"; "???"; EmptyString]
  = ["hello-world"; "rocq-coq-2024"; "snake_case-title";
     "-hello"; EmptyString; EmptyString].
Proof. reflexivity. Qed.

Ltac each_char c :=
  destruct c as [[] [] [] [] [] [] [] []]; vm_compute;
  try reflexivity; try discriminate; auto.

Lemma lower_ascii_not_upper (c : ascii) :
  Naming.is_upper (JS.lower_ascii c) = false.
Proof. each_char c. Qed.

(** After lower-casing and dropping [[^\w\s-]], a character that is
    not a space is a slug character. *)
Lemma kept_char_is_slug_char (c : ascii) :
  Naming.is_upper c = false ->
  Slug.not_slug_input c = false ->
  Slug.is_space c = false ->
  Slug.is_slug_char c = true.
Proof. each_char c. Qed.

Lemma slug_char_facts (c : ascii) :
  Slug.is_slug_char c = true ->
  JS.lower_ascii c = c
  /\ Slug.is_space c = false
  /\ Slug.not_slug_input c = false.
Proof. each_char c. Qed.

Lemma is_hyphen_eq (c : ascii) :
  Slug.is_hyphen c = true -> c = Slug.hyphen.
Proof. unfold Slug.is_hyphen. apply Ascii.eqb_eq. Qed.

Lemma all_chars_toLowerCase (s : string) :
  Slug.all_chars (fun c => negb (Naming.is_upper c)) (JS.toLowerCase s) = true.
Proof.
  induction s as [|c s IH]; simpl; [reflexivity|].
  now rewrite lower_ascii_not_upper, IH.
Qed.

Lemma all_chars_trimStart (P : ascii -> bool) (s : string) :
  Slug.all_chars P s = true -> Slug.all_chars P (Slug.trimStart s) = true.
Proof.
  induction s as [|c s IH]; simpl; [reflexivity|].
  intros H. apply andb_prop in H. destruct H as [Hc Hs].
  destruct (Slug.is_space c); [now apply IH|].
  simpl. now rewrite Hc, Hs.
Qed.

Lemma all_chars_trimEnd (P : ascii -> bool) (s : string) :
  Slug.all_chars P s = true -> Slug.all_chars P (Slug.trimEnd s) = true.
Proof.
  induction s as [|c s IH]; simpl; [reflexivity|].
  intros H. apply andb_prop in H. destruct H as [Hc Hs].
  specialize (IH Hs).
  destruct (Slug.trimEnd s) as [|d t].
  - destruct (Slug.is_space c); simpl; [reflexivity | now rewrite Hc].
  - change (P c && Slug.all_chars P (String d t) = true).
    now rewrite Hc, IH.
Qed.

Lemma all_chars_remove (P Q p : ascii -> bool) (s : string) :
  (forall c, P c = true -> p c = false -> Q c = true) ->
  Slug.all_chars P s = true ->
  Slug.all_chars Q (Slug.remove p s) = true.
Proof.
  intros HPQ. induction s as [|c s IH]; simpl; [reflexivity|].
  intros H. apply andb_prop in H. destruct H as [Hc Hs].
  destruct (p c) eqn:E; [now apply IH|].
  simpl. rewrite (HPQ c Hc E). now apply IH.
Qed.

Lemma all_chars_collapse (P Q p : ascii -> bool) (r : ascii) (s : string) :
  (forall c, P c = true -> p c = false -> Q c = true) ->
  Q r = true ->
  Slug.all_chars P s = true ->
  Slug.all_chars Q (Slug.collapse p r s) = true.
Proof.
  intros HPQ Hr. induction s as [|c s IH]; [reflexivity|].
  intros H. simpl in H. apply andb_prop in H. destruct H as [Hc Hs].
  specialize (IH Hs). simpl.
  destruct (p c) eqn:E.
  - destruct s as [|d s']; [simpl; now rewrite Hr|].
    destruct (p d); [exact IH|].
    change (Q r && Slug.all_chars Q (Slug.collapse p r (String d s')) = true).
    now rewrite Hr, IH.
  - change (Q c && Slug.all_chars Q (Slug.collapse p r s) = true).
    now rewrite (HPQ c Hc E), IH.
Qed.

Lemma no_double_hyphen_collapse (s : string) :
  Slug.no_double_hyphen (Slug.collapse Slug.is_hyphen Slug.hyphen s) = true.
Proof.
  induction s as [|c s IH]; [reflexivity|]. simpl.
  destruct (Slug.is_hyphen c) eqn:Ec.
  - destruct s as [|d s']; [reflexivity|].
    destruct (Slug.is_hyphen d) eqn:Ed; [exact IH|].
    assert (Hd : Slug.collapse Slug.is_hyphen Slug.hyphen (String d s')
                 = String d (Slug.collapse Slug.is_hyphen Slug.hyphen s'))
      by (simpl; now rewrite Ed).
    rewrite Hd in IH |- *.
    change (negb (Slug.is_hyphen Slug.hyphen && Slug.is_hyphen d)
            && Slug.no_double_hyphen
                 (String d (Slug.collapse Slug.is_hyphen Slug.hyphen s'))
            = true).
    now rewrite Ed, IH.
  - destruct (Slug.collapse Slug.is_hyphen Slug.hyphen s) as [|d t] eqn:E;
      [reflexivity|].
    change (negb (Slug.is_hyphen c && Slug.is_hyphen d)
            && Slug.no_double_hyphen (String d t) = true).
    now rewrite Ec, IH.
Qed.

Lemma toLowerCase_fixed (s : string) :
  Slug.all_chars Slug.is_slug_char s = true -> JS.toLowerCase s = s.
Proof.
  induction s as [|c s IH]; simpl; [reflexivity|].
  intros H. apply andb_prop in H. destruct H as [Hc Hs].
  destruct (slug_char_facts c Hc) as [-> _]. now rewrite IH.
Qed.

Lemma trimEnd_fixed (s : string) :
  Slug.all_chars Slug.is_slug_char s = true -> Slug.trimEnd s = s.
Proof.
  induction s as [|c s IH]; simpl; [reflexivity|].
  intros H. apply andb_prop in H. destruct H as [Hc Hs].
  rewrite (IH Hs). destruct (slug_char_facts c Hc) as [_ [-> _]].
  now destruct s.
Qed.

Lemma trim_fixed (s : string) :
  Slug.all_chars Slug.is_slug_char s = true -> Slug.trim s = s.
Proof.
  intros H. unfold Slug.trim.
  assert (Hs : Slug.trimStart s = s).
  { destruct s as [|c s]; [reflexivity|]. simpl in H |- *.
    apply andb_prop in H. destruct H as [Hc _].
    now destruct (slug_char_facts c Hc) as [_ [-> _]]. }
  rewrite Hs. now apply trimEnd_fixed.
Qed.

Lemma remove_fixed (s : string) :
  Slug.all_chars Slug.is_slug_char s = true ->
  Slug.remove Slug.not_slug_input s = s.
Proof.
  induction s as [|c s IH]; simpl; [reflexivity|].
  intros H. apply andb_prop in H. destruct H as [Hc Hs].
  destruct (slug_char_facts c Hc) as [_ [_ ->]]. now rewrite IH.
Qed.

Lemma collapse_space_fixed (s : string) :
  Slug.all_chars Slug.is_slug_char s = true ->
  Slug.collapse Slug.is_space Slug.hyphen s = s.
Proof.
  induction s as [|c s IH]; [reflexivity|].
  intros H. simpl in H. apply andb_prop in H. destruct H as [Hc Hs].
  simpl. destruct (slug_char_facts c Hc) as [_ [-> _]]. now rewrite IH.
Qed.

Lemma collapse_hyphen_fixed (s : string) :
  Slug.no_double_hyphen s = true ->
  Slug.collapse Slug.is_hyphen Slug.hyphen s = s.
Proof.
  induction s as [|c s IH]; [reflexivity|].
  intros H. destruct s as [|d s'].
  - simpl. destruct (Slug.is_hyphen c) eqn:Ec; [|reflexivity].
    now rewrite (is_hyphen_eq c Ec).
  - change (negb (Slug.is_hyphen c && Slug.is_hyphen d)
            && Slug.no_double_hyphen (String d s') = true) in H.
    apply andb_prop in H. destruct H as [Hcd Hs].
    specialize (IH Hs).
    change (Slug.collapse Slug.is_hyphen Slug.hyphen (String c (String d s')))
      with (if Slug.is_hyphen c
            then if Slug.is_hyphen d
                 then Slug.collapse Slug.is_hyphen Slug.hyphen (String d s')
                 else String Slug.hyphen
                        (Slug.collapse Slug.is_hyphen Slug.hyphen
                           (String d s'))
            else String c
                   (Slug.collapse Slug.is_hyphen Slug.hyphen (String d s'))).
    rewrite IH.
    destruct (Slug.is_hyphen c) eqn:Ec; [|reflexivity].
    destruct (Slug.is_hyphen d); [discriminate|].
    now rewrite (is_hyphen_eq c Ec).
Qed.

Lemma generateSlug_shape (title : string) :
  Slug.all_chars Slug.is_slug_char (Slug.generateSlug title) = true
  /\ Slug.no_double_hyphen (Slug.generateSlug title) = true.
Proof.
  split; [|apply no_double_hyphen_collapse].
  unfold Slug.generateSlug.
  apply all_chars_collapse
    with (P := Slug.is_slug_char); [auto | reflexivity |].
  apply all_chars_collapse
    with (P := fun c => negb (Naming.is_upper c)
                        && negb (Slug.not_slug_input c));
    [| reflexivity |].
  - intros c Hc Hsp. apply andb_prop in Hc. destruct Hc as [Hu Hk].
    apply negb_true_iff in Hu, Hk. now apply kept_char_is_slug_char.
  - apply all_chars_remove with (P := fun c => negb (Naming.is_upper c)).
    + intros c Hu Hk. now rewrite Hu, Hk.
    + unfold Slug.trim.
      apply all_chars_trimEnd, all_chars_trimStart, all_chars_toLowerCase.
Qed.

(** [generateSlug] returns lower-case letters, digits, underscores
    and hyphens only, and never two hyphens in a row. *)
Theorem generateSlug_is_url_safe (title : string) :
  Slug.all_chars Slug.is_slug_char (Slug.generateSlug title) = true
  /\ Slug.no_double_hyphen (Slug.generateSlug title) = true.
Proof. apply generateSlug_shape. Qed.

(** A slug is its own slug: [generateSlug] changes nothing in a
    string it returned. *)
Theorem generateSlug_idempotent (title : string) :
  Slug.generateSlug (Slug.generateSlug title) = Slug.generateSlug title.
Proof.
  destruct (generateSlug_shape title) as [Hchars Hhyphen].
  remember (Slug.generateSlug title) as u eqn:Hu. clear Hu title.
  unfold Slug.generateSlug.
  rewrite (toLowerCase_fixed u Hchars), (trim_fixed u Hchars),
    (remove_fixed u Hchars), (collapse_space_fixed u Hchars).
  now apply collapse_hyphen_fixed.
Qed.

(* ================================================================== *)
(** * BaseService: how the operations compose *)
(* ================================================================== *)

Section CrudFacts.

Variable Columns : Type.
Variable UpdateDTO : Type.
Variable setColumns : UpdateDTO -> Columns -> Columns.
Variable dtoId : UpdateDTO -> option Z.
Variable hooks : Service.Hooks Columns UpdateDTO.

Local Abbreviation Row := (Service.Row Columns).
Local Abbreviation World := (Service.World Columns).
Local Abbreviation getById := (Crud.getById (Columns := Columns)).
Local Abbreviation getAll := (Crud.getAll (Columns := Columns)).

(** What [getById] answers in a world. *)
Lemma getById_spec (i : Z) (w : World) :
  getById i w
  = Service.Returned (hd_error (filter (Service.hasId i) (Service.table w))) w.
Proof.
  unfold Crud.getById. now destruct (filter (Service.hasId i) (Service.table w)).
Qed.

Lemma filter_hasId_removed (i j : Z) (t : list Row) :
  filter (Service.hasId j) (filter (fun r => negb (Service.hasId i r)) t)
  = if (j =? i)%Z then [] else filter (Service.hasId j) t.
Proof.
  induction t as [|r t IH]; simpl; [now destruct (j =? i)%Z|].
  unfold Service.hasId in *.
  destruct (Service.id r =? i)%Z eqn:Ei, (Service.id r =? j)%Z eqn:Ej;
    simpl; rewrite ?Ej, IH; try reflexivity.
  - apply Z.eqb_eq in Ei, Ej. subst.
    now rewrite Z.eqb_refl.
  - destruct (j =? i)%Z eqn:Eji; [|reflexivity].
    apply Z.eqb_eq in Eji, Ej. subst. rewrite Z.eqb_refl in Ei. discriminate.
Qed.

(** [delete] when the two delete hooks, if implemented, return
    without writing the table. *)
Lemma delete_quiet (i : Z) (w : World) :
  (forall b t, Service.hook_beforeDelete hooks = Some b -> b i t = (inr tt, t)) ->
  (forall a t, Service.hook_afterDelete hooks = Some a -> a i t = (inr tt, t)) ->
  exists called,
    Service.delete hooks i w
    = Service.Returned (existsb (Service.hasId i) (Service.table w))
        {| Service.table :=
             filter (fun r => negb (Service.hasId i r)) (Service.table w);
           Service.calls := called;
           Service.now := Service.now w |}.
Proof.
  intros Hb Ha.
  unfold Service.delete, Service.bind, Service.delete_before, Service.dbDelete.
  destruct (Service.hook_beforeDelete hooks) as [b|] eqn:Eb;
    destruct (Service.hook_afterDelete hooks) as [a|] eqn:Ea;
    unfold Service.invoke, Service.ret; simpl;
    rewrite ?(Hb b _ eq_refl); simpl; rewrite existsb_filter_length;
    destruct (existsb (Service.hasId i) (Service.table w));
    simpl; rewrite ?(Ha a _ eq_refl); simpl; eexists; reflexivity.
Qed.

(** After [delete(id)], [getById(id)] answers [null], a second
    [delete(id)] answers [false], and this whether or not the record
    existed (delete hooks that leave the table alone). *)
Theorem delete_then_record_is_gone (i : Z) (w w2 : World) (deleted : bool)
  (Hbefore : forall b t, Service.hook_beforeDelete hooks = Some b ->
                         b i t = (inr tt, t))
  (Hafter : forall a t, Service.hook_afterDelete hooks = Some a ->
                        a i t = (inr tt, t))
  (Hdelete : Service.delete hooks i w = Service.Returned deleted w2) :
  getById i w2 = Service.Returned None w2
  /\ exists w3, Service.delete hooks i w2 = Service.Returned false w3
                /\ Service.table w3 = Service.table w2.
Proof.
  destruct (@delete_quiet i w Hbefore Hafter) as [called Hd].
  rewrite Hd in Hdelete. injection Hdelete as _ <-.
  split.
  - rewrite getById_spec. simpl. rewrite filter_hasId_removed.
    now rewrite Z.eqb_refl.
  - destruct (@delete_quiet i
                {| Service.table :=
                     filter (fun r => negb (Service.hasId i r)) (Service.table w);
                   Service.calls := called;
                   Service.now := Service.now w |} Hbefore Hafter)
      as [called' Hd'].
    simpl in Hd'.
    assert (Hnone : existsb (Service.hasId i)
                      (filter (fun r => negb (Service.hasId i r))
                         (Service.table w)) = false).
    { rewrite <- existsb_filter_length, filter_hasId_removed.
      now rewrite Z.eqb_refl. }
    rewrite Hnone in Hd'. eexists. split; [exact Hd'|].
    simpl. now apply filter_negb_all.
Qed.

(** [delete(id)] leaves every other record as it was and keeps the
    order of the rows: [getById] of another id answers as before and
    [getAll] answers the former rows without those of that id. *)
Theorem delete_keeps_other_records (i : Z) (w w2 : World) (deleted : bool)
  (Hbefore : forall b t, Service.hook_beforeDelete hooks = Some b ->
                         b i t = (inr tt, t))
  (Hafter : forall a t, Service.hook_afterDelete hooks = Some a ->
                        a i t = (inr tt, t))
  (Hdelete : Service.delete hooks i w = Service.Returned deleted w2) :
  getAll w2
  = Service.Returned
      (filter (fun r => negb (Service.hasId i r)) (Service.table w)) w2
  /\ forall j, j <> i ->
       exists found,
         getById j w = Service.Returned found w
         /\ getById j w2 = Service.Returned found w2.
Proof.
  destruct (@delete_quiet i w Hbefore Hafter) as [called Hd].
  rewrite Hd in Hdelete. injection Hdelete as _ <-.
  split; [reflexivity|].
  intros j Hj. rewrite !getById_spec. simpl.
  rewrite filter_hasId_removed.
  apply Z.eqb_neq in Hj. rewrite Hj. eexists. split; reflexivity.
Qed.

(** The rows with a given id after an UPDATE that leaves the ids
    alone: the changed rows for the id updated, the former rows for
    another id. *)
Lemma filter_hasId_changed (i j : Z) (change : Row -> Row) (t : list Row) :
  (forall r, Service.id (change r) = Service.id r) ->
  filter (Service.hasId j) (map change (filter (Service.hasId i) t))
  = if (j =? i)%Z then map change (filter (Service.hasId i) t) else [].
Proof.
  intros Hkeep.
  induction t as [|r t IH]; simpl; [now destruct (j =? i)%Z|].
  destruct (Service.hasId i r) eqn:Ei; [|exact IH].
  cbn [map filter]. rewrite IH. unfold Service.hasId in *.
  rewrite Hkeep. apply Z.eqb_eq in Ei. rewrite Ei, (Z.eqb_sym i j).
  now destruct (j =? i)%Z.
Qed.

Lemma dbUpdate_filter (i j : Z) (change : Row -> Row) (t : list Row) :
  (forall r, Service.id (change r) = Service.id r) ->
  filter (Service.hasId j)
    (filter (fun r => negb (Service.hasId i r)) t
     ++ map change (filter (Service.hasId i) t))
  = if (j =? i)%Z
    then map change (filter (Service.hasId i) t)
    else filter (Service.hasId j) t.
Proof.
  intros Hkeep.
  rewrite filter_app, filter_hasId_removed, filter_hasId_changed
    by exact Hkeep.
  destruct (j =? i)%Z; [reflexivity | apply app_nil_r].
Qed.

Lemma filter_others_changed (i : Z) (change : Row -> Row) (t : list Row) :
  (forall r, Service.id (change r) = Service.id r) ->
  filter (fun r => negb (Service.hasId i r))
    (map change (filter (Service.hasId i) t)) = [].
Proof.
  intros Hkeep. induction t as [|r t IH]; [reflexivity|].
  simpl. destruct (Service.hasId i r) eqn:Ei; [|exact IH].
  cbn [map filter]. rewrite IH. unfold Service.hasId in *.
  now rewrite Hkeep, Ei.
Qed.

Lemma filter_others_idem (i : Z) (t : list Row) :
  filter (fun r => negb (Service.hasId i r))
    (filter (fun r => negb (Service.hasId i r)) t)
  = filter (fun r => negb (Service.hasId i r)) t.
Proof.
  induction t as [|r t IH]; [reflexivity|].
  simpl. destruct (Service.hasId i r) eqn:Ei; simpl; [exact IH|].
  now rewrite Ei, IH.
Qed.

(** The rows that do not match come first and in their order, the
    rows that match behind them: the same rows as before. *)
Lemma partition_Permutation (A : Type) (f : A -> bool) (l : list A) :
  Permutation (filter (fun x => negb (f x)) l ++ filter f l) l.
Proof.
  induction l as [|x l IH]; simpl; [constructor|].
  destruct (f x); simpl.
  - apply Permutation_sym, Permutation_cons_app, Permutation_sym, IH.
  - now constructor.
Qed.

(** The UPDATE for data without an [id] key. *)
Lemma dbUpdate_no_key (i : Z) (data : UpdateDTO) (w : World) :
  dtoId data = None ->
  Service.dbUpdate setColumns dtoId i data w
  = let change (r : Row) : Row :=
      {| Service.id := Service.id r;
         Service.columns := setColumns data (Service.columns r);
         Service.updatedAt := Service.now w |} in
    Service.Returned (map change (filter (Service.hasId i) (Service.table w)))
      {| Service.table :=
           filter (fun r => negb (Service.hasId i r)) (Service.table w)
           ++ map change (filter (Service.hasId i) (Service.table w));
         Service.calls := Service.calls w;
         Service.now := Service.now w |}.
Proof.
  intros Hnokey. unfold Service.dbUpdate, Service.collides.
  now rewrite Hnokey.
Qed.

(** [update] of an existing record with data that carries no [id]
    key (no [afterUpdate] hook): the answer is the stored row, with
    the id unchanged, the columns set from the processed data and
    [updatedAt] set to the current time, and [getById] reads the
    same row back. *)
Theorem update_then_getById (i : Z) (data data' : UpdateDTO)
  (w w1 : World) (old : Row)
  (Hbefore : Service.update_before hooks i data w = Service.Returned data' w1)
  (Hnokey : dtoId data' = None)
  (Hnoafter : Service.hook_afterUpdate hooks = None)
  (Hold : getById i w1 = Service.Returned (Some old) w1) :
  exists w2,
    let stored :=
      {| Service.id := i;
         Service.columns := setColumns data' (Service.columns old);
         Service.updatedAt := Service.now w1 |} in
    Service.update setColumns dtoId hooks i data w
    = Service.Returned (Some stored) w2
    /\ getById i w2 = Service.Returned (Some stored) w2
    /\ Service.calls w2 = Service.calls w1.
Proof.
  rewrite getById_spec in Hold. injection Hold as Hold.
  destruct (filter (Service.hasId i) (Service.table w1)) as [|r rs] eqn:Ef;
    [discriminate|].
  injection Hold as ->.
  assert (Hid : Service.id old = i).
  { assert (Hin : In old (filter (Service.hasId i) (Service.table w1)))
      by (rewrite Ef; now left).
    apply filter_In in Hin. destruct Hin as [_ Hin].
    now apply Z.eqb_eq in Hin. }
  unfold Service.update, Service.bind. rewrite Hbefore.
  rewrite (dbUpdate_no_key i w1 Hnokey). cbv zeta.
  rewrite Ef. cbn [map]. rewrite Hnoafter, Hid. unfold Service.ret.
  eexists. split; [reflexivity|]. split; [|reflexivity].
  rewrite getById_spec. cbn [Service.table].
  rewrite filter_app, filter_hasId_removed, Z.eqb_refl.
  cbn [app filter]. unfold Service.hasId at 1. cbn [Service.id].
  now rewrite Z.eqb_refl.
Qed.

(** [update] with data that carries no [id] key never adds or
    removes a row and never touches a row with another id, whether
    or not a record matches: the rows with another id are the same,
    in the same order, the ids of the table are the same up to the
    place of the updated row, and [getById] of another id answers
    as before. *)
Theorem update_keeps_other_records (i : Z) (data data' : UpdateDTO)
  (w w1 w2 : World) (answer : option Row)
  (Hbefore : Service.update_before hooks i data w = Service.Returned data' w1)
  (Hnokey : dtoId data' = None)
  (Hafter : forall a r t, Service.hook_afterUpdate hooks = Some a ->
                          snd (a r t) = t)
  (Hupdate : Service.update setColumns dtoId hooks i data w
             = Service.Returned answer w2) :
  filter (fun r => negb (Service.hasId i r)) (Service.table w2)
  = filter (fun r => negb (Service.hasId i r)) (Service.table w1)
  /\ Permutation (map (@Service.id Columns) (Service.table w2))
       (map (@Service.id Columns) (Service.table w1))
  /\ forall j, j <> i ->
       exists found,
         getById j w1 = Service.Returned found w1
         /\ getById j w2 = Service.Returned found w2.
Proof.
  unfold Service.update, Service.bind in Hupdate. rewrite Hbefore in Hupdate.
  rewrite (dbUpdate_no_key i w1 Hnokey) in Hupdate. cbv zeta in Hupdate.
  set (change := fun r : Row =>
         {| Service.id := Service.id r;
            Service.columns := setColumns data' (Service.columns r);
            Service.updatedAt := Service.now w1 |}) in Hupdate.
  set (others := filter (fun r => negb (Service.hasId i r))
                   (Service.table w1)) in *.
  set (matched := filter (Service.hasId i) (Service.table w1)) in *.
  assert (Ht : Service.table w2 = others ++ map change matched).
  { destruct (map change matched) as [|r rs] eqn:Em.
    - unfold Service.ret in Hupdate. now injection Hupdate as _ <-.
    - destruct (Service.hook_afterUpdate hooks) as [a|] eqn:Ea.
      + unfold Service.bind, Service.invoke, Service.ret in Hupdate.
        cbn [Service.table Service.calls Service.now] in Hupdate.
        specialize (Hafter a r (others ++ r :: rs) eq_refl).
        destruct (a r (others ++ r :: rs)) as [[e|r'] t''];
          [discriminate|].
        simpl in Hafter. subst t''. now injection Hupdate as _ <-.
      + unfold Service.ret in Hupdate. now injection Hupdate as _ <-. }
  rewrite Ht. split; [|split].
  - subst others matched.
    rewrite filter_app, filter_others_changed by reflexivity.
    now rewrite app_nil_r, filter_others_idem.
  - rewrite map_app, map_map.
    change (map (fun r => Service.id (change r)) matched)
      with (map (@Service.id Columns) matched).
    rewrite <- map_app. apply Permutation_map.
    apply partition_Permutation.
  - intros j Hj. rewrite !getById_spec, Ht.
    subst others matched. rewrite dbUpdate_filter by reflexivity.
    apply Z.eqb_neq in Hj. rewrite Hj.
    eexists. split; reflexivity.
Qed.

End CrudFacts.

Section CreateFacts.

Variable Columns : Type.
Variable CreateDTO : Type.
Variable insertValues :
  CreateDTO -> list (Service.Row Columns) -> string + Columns.
Variable hooks : Crud.CreateHooks Columns CreateDTO.

Local Abbreviation Row := (Service.Row Columns).
Local Abbreviation World := (Service.World Columns).
Local Abbreviation getById := (Crud.getById (Columns := Columns)).
Local Abbreviation create := (Crud.create insertValues hooks).

Lemma filter_hasId_app_fresh (j newId : Z) (t : list Row) (r : Row) :
  Service.id r = newId ->
  existsb (Service.hasId newId) t = false ->
  filter (Service.hasId j) (t ++ [r])
  = if (j =? newId)%Z then [r] else filter (Service.hasId j) t.
Proof.
  intros Hr Hfresh. rewrite filter_app. simpl. unfold Service.hasId at 2.
  rewrite Hr, Z.eqb_sym.
  destruct (j =? newId)%Z eqn:E; [|now rewrite app_nil_r].
  apply Z.eqb_eq in E. subst j. now rewrite (filter_none _ _ Hfresh).
Qed.

(** [create] (no [afterCreate] hook) with an id no row has yet: the
    new row carries that id, the inserted column values and the
    current time, it is appended to the table, [getById] reads it
    back, and every other record answers as before. *)
Theorem create_then_getById (newId : Z) (data data' : CreateDTO)
  (w w1 : World) (c : Columns)
  (Hbefore : Crud.create_before hooks data w = Service.Returned data' w1)
  (Hinsert : insertValues data' (Service.table w1) = inr c)
  (Hnoafter : Crud.hook_afterCreate hooks = None)
  (Hfresh : existsb (Service.hasId newId) (Service.table w1) = false) :
  exists w2,
    let created :=
      {| Service.id := newId;
         Service.columns := c;
         Service.updatedAt := Service.now w1 |} in
    create newId data w = Service.Returned created w2
    /\ Service.table w2 = Service.table w1 ++ [created]
    /\ getById newId w2 = Service.Returned (Some created) w2
    /\ forall j, j <> newId ->
         exists found,
           getById j w1 = Service.Returned found w1
           /\ getById j w2 = Service.Returned found w2.
Proof.
  unfold Crud.create, Service.bind. rewrite Hbefore.
  unfold Crud.dbInsert. rewrite Hinsert, Hnoafter. unfold Service.ret.
  eexists. split; [reflexivity|]. split; [reflexivity|]. split.
  - rewrite getById_spec. simpl.
    rewrite filter_hasId_app_fresh with (newId := newId);
      [| reflexivity | exact Hfresh].
    now rewrite Z.eqb_refl.
  - intros j Hj. rewrite !getById_spec. simpl.
    rewrite filter_hasId_app_fresh with (newId := newId);
      [| reflexivity | exact Hfresh].
    apply Z.eqb_neq in Hj. rewrite Hj. eexists. split; reflexivity.
Qed.

(** A failed [create] inserts nothing and never calls [afterCreate]:
    when [beforeCreate] throws, [create] throws the same error with
    the table as the hook left it; when the insert is refused,
    [create] throws the database error with the world as
    [beforeCreate] left it. *)
Theorem create_failure_inserts_nothing (newId : Z) (data : CreateDTO)
  (w : World) :
  (forall h e t,
      Crud.hook_beforeCreate hooks = Some h ->
      h data (Service.table w) = (inl e, t) ->
      create newId data w
      = Service.Thrown e
          {| Service.table := t;
             Service.calls := Service.calls w ++ [Service.beforeCreate];
             Service.now := Service.now w |})
  /\ (forall data' w1 e,
        Crud.create_before hooks data w = Service.Returned data' w1 ->
        insertValues data' (Service.table w1) = inl e ->
        create newId data w = Service.Thrown e w1).
Proof.
  split.
  - intros h e t Hh Hthrow.
    unfold Crud.create, Service.bind, Crud.create_before.
    rewrite Hh. unfold Service.invoke. now rewrite Hthrow.
  - intros data' w1 e Hbefore Hinsert.
    unfold Crud.create, Service.bind. rewrite Hbefore.
    unfold Crud.dbInsert. now rewrite Hinsert.
Qed.

End CreateFacts.

(* ================================================================== *)
(** * ArticleService: slugs, drafts and authors *)
(* ================================================================== *)

Section ArticleFacts.

Variable Rest : Type.
Variable username : Z -> option string.

Local Abbreviation DTO := (Articles.CreateArticleDTO Rest).
Local Abbreviation Columns := (Articles.ArticleColumns Rest).
Local Abbreviation World := (Service.World Columns).

Lemma firstn_1_length (A : Type) (l : list A) :
  (0 <? List.length (firstn 1 l))%nat = (0 <? List.length l)%nat.
Proof. now destruct l. Qed.

Lemma hasSlug_In (s : string) (w : World) :
  existsb (Articles.hasSlug s) (Service.table w) = true <-> In s (Articles.slugs w).
Proof.
  unfold Articles.slugs. rewrite existsb_exists, in_map_iff.
  unfold Articles.hasSlug.
  split; intros [r [H1 H2]]; exists r.
  - apply String.eqb_eq in H2. now split.
  - split; [assumption|]. now apply String.eqb_eq.
Qed.

Lemma not_In_slugs (s : string) (w : World) :
  ~ In s (Articles.slugs w) ->
  existsb (Articles.hasSlug s) (Service.table w) = false.
Proof.
  intros Hnot.
  destruct (existsb (Articles.hasSlug s) (Service.table w)) eqn:E;
    [|reflexivity].
  apply hasSlug_In in E. contradiction.
Qed.

Lemma createArticle_ok (newId : Z) (d : DTO) (author : Z) (w : World) :
  existsb (Articles.hasSlug (Articles.slugFor d)) (Service.table w) = false ->
  Articles.createArticle newId d author w
  = Service.Returned
      {| Articles.article := Articles.stored newId d author w;
         Articles.authorName := None |}
      {| Service.table := Service.table w ++ [Articles.stored newId d author w];
         Service.calls := Service.calls w ++ [Service.beforeCreate];
         Service.now := Service.now w |}.
Proof.
  intros Hnew.
  unfold Articles.createArticle, Crud.create, Service.bind, Crud.create_before.
  cbn [Crud.hook_beforeCreate Crud.hook_afterCreate Articles.articleHooks].
  unfold Service.invoke, Articles.beforeCreate.
  cbn [Articles.data Articles.authorId Service.table].
  rewrite firstn_1_length, existsb_filter_length, Hnew.
  unfold Crud.dbInsert, Articles.insertArticle.
  cbn [Articles.data Articles.slug Service.table]. rewrite Hnew.
  reflexivity.
Qed.

Lemma createArticle_dup (newId : Z) (d : DTO) (author : Z) (w : World) :
  existsb (Articles.hasSlug (Articles.slugFor d)) (Service.table w) = true ->
  Articles.createArticle newId d author w
  = Service.Thrown (Articles.slugExists (Articles.slugFor d))
      {| Service.table := Service.table w;
         Service.calls := Service.calls w ++ [Service.beforeCreate];
         Service.now := Service.now w |}.
Proof.
  intros Hdup.
  unfold Articles.createArticle, Crud.create, Service.bind, Crud.create_before.
  cbn [Crud.hook_beforeCreate Crud.hook_afterCreate Articles.articleHooks].
  unfold Service.invoke, Articles.beforeCreate.
  cbn [Articles.data Articles.authorId Service.table].
  now rewrite firstn_1_length, existsb_filter_length, Hdup.
Qed.

(** [createArticle] with a slug an article already has: it throws
    the "already exists" error of [beforeCreate] and stores
    nothing. *)
Theorem createArticle_rejects_duplicate_slug
  (newId : Z) (d : DTO) (author : Z) (w : World)
  (Hdup : In (Articles.slugFor d) (Articles.slugs w)) :
  Articles.createArticle newId d author w
  = Service.Thrown (Articles.slugExists (Articles.slugFor d))
      {| Service.table := Service.table w;
         Service.calls := Service.calls w ++ [Service.beforeCreate];
         Service.now := Service.now w |}.
Proof. apply createArticle_dup. now apply hasSlug_In. Qed.

(** [createArticle] with a slug no article has: the stored row has
    the given slug when a non-empty one is supplied and the slug
    generated from the title otherwise, the given author, and is
    unpublished unless the DTO says otherwise. *)
Theorem createArticle_stores_slug_and_author
  (newId : Z) (d : DTO) (author : Z) (w : World)
  (Hnew : ~ In (Articles.slugFor d) (Articles.slugs w)) :
  exists created w2,
    Articles.createArticle newId d author w
    = Service.Returned
        {| Articles.article := created; Articles.authorName := None |} w2
    /\ Service.table w2 = Service.table w ++ [created]
    /\ Service.id created = newId
    /\ Articles.col_authorId (Service.columns created) = author
    /\ Articles.col_isPublished (Service.columns created)
       = match Articles.isPublished d with Some b => b | None => false end
    /\ Articles.col_slug (Service.columns created)
       = match Articles.slug d with
         | Some s => if (s =? EmptyString)%string
                     then Slug.generateSlug (Articles.title d)
                     else s
         | None => Slug.generateSlug (Articles.title d)
         end.
Proof.
  pose proof (not_In_slugs _ _ Hnew) as H.
  eexists. eexists. rewrite (createArticle_ok newId d author w H).
  split; [reflexivity|]. repeat split.
  simpl. unfold Articles.slugFor.
  destruct (Articles.slug d) as [s|]; [|reflexivity].
  now destruct (s =? EmptyString)%string.
Qed.

(** Slugs stay unique: if no two articles share a slug before
    [createArticle], none do afterwards, whether it returns or
    throws. *)
Theorem createArticle_keeps_slugs_unique
  (newId : Z) (d : DTO) (author : Z) (w : World)
  (Hunique : NoDup (Articles.slugs w)) :
  NoDup
    (Articles.slugs
       match Articles.createArticle newId d author w with
       | Service.Returned _ w2 => w2
       | Service.Thrown _ w2 => w2
       end).
Proof.
  destruct (existsb (Articles.hasSlug (Articles.slugFor d)) (Service.table w))
    eqn:E.
  - now rewrite (createArticle_dup newId d author w E).
  - rewrite (createArticle_ok newId d author w E).
    unfold Articles.slugs in *. cbn [Service.table].
    rewrite map_app. cbn [map Articles.stored Service.columns Articles.col_slug].
    apply NoDup_app; [exact Hunique | repeat constructor; intros [] |].
    intros s Hs [<-|[]].
    assert (Hin : existsb (Articles.hasSlug (Articles.slugFor d))
                    (Service.table w) = true) by now apply hasSlug_In.
    rewrite E in Hin. discriminate.
Qed.

Lemma controllerCreate_ok (newId : Z) (u : Controller.User) (v : DTO)
  (w : World) :
  existsb (Articles.hasSlug (Articles.slugFor v)) (Service.table w) = false ->
  Articles.controllerCreate newId (Some u) v w
  = Service.Returned
      (Http.json
         (Http.success
            {| Articles.article :=
                 Articles.stored newId v (Controller.id u) w;
               Articles.authorName := None |}
            (Some "Article created successfully"))
         (Some 201%Z))
      {| Service.table :=
           Service.table w ++ [Articles.stored newId v (Controller.id u) w];
         Service.calls := Service.calls w ++ [Service.beforeCreate];
         Service.now := Service.now w |}.
Proof.
  intros Hnew. unfold Articles.controllerCreate, Service.bind.
  rewrite createArticle_ok by exact Hnew.
  unfold Service.ret, Articles.stored, Articles.slugFor. simpl.
  now destruct (Articles.isPublished v) as [[]|].
Qed.

(** [ArticleController.create]: without an authenticated user it
    throws and stores nothing; with one (and a new slug) it answers
    201 and the stored article's author is the caller. *)
Theorem controllerCreate_author_is_caller
  (newId : Z) (u : Controller.User) (v : DTO) (w : World)
  (Hnew : ~ In (Articles.slugFor v) (Articles.slugs w)) :
  Articles.controllerCreate newId None v w
  = Service.Thrown Articles.notAuthenticated w
  /\ exists created w2,
       Articles.controllerCreate newId (Some u) v w
       = Service.Returned
           (Http.json
              (Http.success
                 {| Articles.article := created; Articles.authorName := None |}
                 (Some "Article created successfully"))
              (Some 201%Z))
           w2
       /\ Service.table w2 = Service.table w ++ [created]
       /\ Articles.col_authorId (Service.columns created) = Controller.id u.
Proof.
  split; [reflexivity|].
  pose proof (not_In_slugs _ _ Hnew) as H.
  eexists. eexists. rewrite (controllerCreate_ok newId u v w H).
  repeat split.
Qed.

(** An article created without [isPublished] is a draft: the public
    list ([getAll]) is the same as before, while [getById] of the
    new id answers the article, joined with its author's name. *)
Theorem new_article_is_a_draft
  (newId : Z) (u : Controller.User) (v : DTO) (w : World)
  (Hdraft : Articles.isPublished v = None)
  (Hnew : ~ In (Articles.slugFor v) (Articles.slugs w))
  (Hfresh : existsb (Service.hasId newId) (Service.table w) = false) :
  exists answer w2 listed,
    Articles.controllerCreate newId (Some u) v w
    = Service.Returned answer w2
    /\ Articles.getAll username w = Service.Returned listed w
    /\ Articles.getAll username w2 = Service.Returned listed w2
    /\ Articles.getById username newId w2
       = Service.Returned
           (Some {| Articles.article :=
                      Articles.stored newId v (Controller.id u) w;
                    Articles.authorName := username (Controller.id u) |})
           w2.
Proof.
  pose proof (not_In_slugs _ _ Hnew) as H.
  eexists. eexists. eexists. rewrite (controllerCreate_ok newId u v w H).
  split; [reflexivity|]. split; [reflexivity|]. split.
  - unfold Articles.getAll. cbn [Service.table].
    rewrite filter_app. cbn [filter Articles.stored Service.columns
                               Articles.col_isPublished].
    rewrite Hdraft. now rewrite app_nil_r.
  - unfold Articles.getById. cbn [Service.table].
    rewrite filter_app, (filter_none _ _ Hfresh).
    cbn [filter app Articles.stored Service.id].
    unfold Service.hasId at 1. cbn [Service.id]. rewrite Z.eqb_refl.
    reflexivity.
Qed.

End ArticleFacts.

(* ================================================================== *)
(** * UserService and UserAdminController *)
(* ================================================================== *)

Section UserFacts.

Variable hashPassword : string -> string.
Variable insertUser :
  Users.CreateUserDTO -> list Users.UserRow -> string + Users.UserColumns.

Local Abbreviation World := (Service.World Users.UserColumns).
Local Abbreviation getById := (Crud.getById (Columns := Users.UserColumns)).

(** [UserAdminController.delete] answers 404 exactly when no user
    has the id, and then changes nothing; otherwise it answers 200
    and the users with that id are gone, the others kept in order.
    No hook is called. *)
Theorem userDelete_404_iff_missing (i : Z) (w : World) :
  exists answer w2,
    Users.delete hashPassword i w = Service.Returned answer w2
    /\ (Http.status answer = 404%Z
        <-> ~ exists r, In r (Service.table w) /\ Service.id r = i)
    /\ (Http.status answer = 200%Z
        <-> exists r, In r (Service.table w) /\ Service.id r = i)
    /\ Service.table w2
       = filter (fun r => negb (Service.hasId i r)) (Service.table w)
    /\ (Http.status answer = 404%Z -> w2 = w)
    /\ Service.calls w2 = Service.calls w.
Proof.
  pose proof (existsb_hasId i (Service.table w)) as Hiff.
  unfold Users.delete, Service.bind, Service.delete, Service.bind,
    Service.delete_before, Service.dbDelete.
  cbn [Service.hook_beforeDelete Service.hook_afterDelete Users.userHooks].
  unfold Service.ret. rewrite existsb_filter_length.
  destruct (existsb (Service.hasId i) (Service.table w)) eqn:E;
    eexists; eexists; (split; [reflexivity|]); cbn.
  - split; [split; [discriminate|]|].
    { intros Hn. exfalso. apply Hn. now apply Hiff. }
    split; [split; [intros _; now apply Hiff | reflexivity]|].
    split; [reflexivity|]. split; [discriminate | reflexivity].
  - split; [split; [|reflexivity]|].
    { intros _ H. apply Hiff in H. discriminate. }
    split; [split; [discriminate|]|].
    { intros H. apply Hiff in H. discriminate. }
    split; [reflexivity|]. split; [|reflexivity].
    intros _. rewrite (filter_negb_all _ _ E). now destruct w.
Qed.

(** [beforeUpdate] hands the [id] key of the data on. *)
Lemma beforeUpdate_dtoId (i : Z) (body : Users.PartialUserDTO)
  (t : list Users.UserRow) :
  exists data',
    Users.beforeUpdate hashPassword i body t = (inr data', t)
    /\ Users.dtoId data' = Users.p_id body
    /\ Users.p_password data'
       = JS.cond_str (Users.p_password body)
           (fun p => Some (hashPassword p)) (Users.p_password body).
Proof.
  unfold Users.beforeUpdate, JS.cond_str. eexists. split; [reflexivity|].
  destruct (Users.p_password body) as [p|] eqn:Ep; [|now rewrite Ep].
  destruct (negb (p =? EmptyString)%string); [now split|].
  now rewrite Ep.
Qed.

(** The password [UserAdminController.update] stores for an existing
    user, for a body without [id] key: the hash of the password of
    the body when that is a non-empty string, the empty string as it
    is when the body gives one, and the password stored before when
    the body gives none.  The answer is 200 and [getById] reads the
    stored row back. *)
Theorem userUpdate_stored_password (i : Z) (body : Users.PartialUserDTO)
  (w : World) (old : Users.UserRow)
  (Hnokey : Users.p_id body = None)
  (Hold : getById i w = Service.Returned (Some old) w) :
  exists stored w2,
    Users.update hashPassword i body w
    = Service.Returned
        (Http.json (Http.success stored (Some "User updated successfully"))
           None)
        w2
    /\ getById i w2 = Service.Returned (Some stored) w2
    /\ Service.id stored = i
    /\ Users.col_password (Service.columns stored)
       = match Users.p_password body with
         | Some p =>
             if (p =? EmptyString)%string then EmptyString else hashPassword p
         | None => Users.col_password (Service.columns old)
         end.
Proof.
  rewrite getById_spec in Hold. injection Hold as Hold.
  destruct (filter (Service.hasId i) (Service.table w)) as [|r rs] eqn:Ef;
    [discriminate|].
  injection Hold as ->.
  assert (Hid : Service.id old = i).
  { assert (Hin : In old (filter (Service.hasId i) (Service.table w)))
      by (rewrite Ef; now left).
    apply filter_In in Hin. destruct Hin as [_ Hin].
    now apply Z.eqb_eq in Hin. }
  destruct (beforeUpdate_dtoId i body (Service.table w))
    as [data' [Hhook [Hkey Hpassword]]].
  rewrite Hnokey in Hkey.
  unfold Users.update, Service.bind, Service.update, Service.bind,
    Service.update_before.
  cbn [Service.hook_beforeUpdate Service.hook_afterUpdate Users.userHooks].
  unfold Service.invoke. rewrite Hhook.
  rewrite (@dbUpdate_no_key _ _ Users.setUser Users.dtoId i data' _ Hkey).
  cbv zeta.
  cbn [Service.table Service.now Service.calls].
  rewrite Ef. cbn [map]. unfold Service.ret.
  eexists. eexists. split; [reflexivity|]. split; [|split].
  - rewrite getById_spec. cbn [Service.table].
    rewrite filter_app, filter_hasId_removed, Z.eqb_refl.
    cbn [app filter]. unfold Service.hasId at 1. cbn [Service.id].
    now rewrite Hid, Z.eqb_refl.
  - exact Hid.
  - cbn [Service.columns]. unfold Users.setUser.
    cbn [Users.col_password]. rewrite Hpassword. unfold JS.cond_str.
    destruct (Users.p_password body) as [p|]; [|reflexivity].
    destruct (p =? EmptyString)%string eqn:E; cbn; [|reflexivity].
    now apply String.eqb_eq in E.
Qed.


End UserFacts.

(* ================================================================== *)
(** * The template context and the generated route file *)
(* ================================================================== *)

Section ContextFacts.

Variable pluralize : string -> string.
Variable toSnakeCase : string -> string.

Local Abbreviation context := (buildContext pluralize toSnakeCase).
Local Abbreviation plan := (routePlan pluralize toSnakeCase).
Local Abbreviation files := (Render.generate pluralize toSnakeCase).

(** The ownership field of a context is never the empty string, its
    snake-case form exists exactly when the field does, and the
    three flags derived from it ([needsUserImport],
    [needsCreateOverride], [hasGetAllOverride]) say whether it
    exists; under ownership auth it always does. *)
Theorem context_ownershipField_consistent (options : Cli.CLIOptions) :
  (forall f, ownershipField (context options) = Some f -> f <> EmptyString)
  /\ ownershipFieldSnake (context options)
     = option_map toSnakeCase (ownershipField (context options))
  /\ needsUserImport (context options)
     = JS.defined (ownershipField (context options))
  /\ needsCreateOverride (context options)
     = JS.defined (ownershipField (context options))
  /\ hasGetAllOverride (context options)
     = JS.defined (ownershipField (context options))
  /\ (Scaffold.ownershipCheck (context options) = true ->
      JS.defined (ownershipField (context options)) = true).
Proof.
  assert (Hfield : forall f, ownershipField (context options) = Some f ->
                             f <> EmptyString).
  { intros f. rewrite ownershipField_spec. unfold JS.or_str.
    destruct (JS.truthy (Cli.ownershipField options)) eqn:E.
    - intros Hf. rewrite Hf in E. now apply truthy_Some.
    - destruct (Cli.auth options) as [[]|]; try discriminate.
      intros Hf. injection Hf as <-. discriminate. }
  assert (Htruthy : JS.truthy (ownershipField (context options))
                    = JS.defined (ownershipField (context options))).
  { destruct (ownershipField (context options)) as [f|] eqn:E;
      [|reflexivity].
    simpl. apply negb_true_iff. apply String.eqb_neq. now apply Hfield. }
  split; [exact Hfield|]. split; [|split; [|split; [|split]]].
  - change (JS.cond_str (ownershipField (context options))
              (fun f => Some (toSnakeCase f)) None
            = option_map toSnakeCase (ownershipField (context options))).
    destruct (ownershipField (context options)) as [f|] eqn:E;
      [|reflexivity].
    simpl. specialize (Hfield f eq_refl). apply String.eqb_neq in Hfield.
    now rewrite Hfield.
  - exact Htruthy.
  - exact Htruthy.
  - exact Htruthy.
  - intros Hown. rewrite <- Htruthy.
    change (AuthType_eqb (authType (context options)) ownership = true)
      in Hown.
    rewrite ownershipField_spec.
    change (authType (context options))
      with (match Cli.auth options with Some a => a | None => none end)
      in Hown.
    destruct (Cli.auth options) as [[]|]; try discriminate.
    unfold JS.or_str.
    destruct (JS.truthy (Cli.ownershipField options)) eqn:E;
      [exact E | reflexivity].
Qed.

(** The auth and role handlers the route file passes, from the
    options. *)
Lemma authMiddleware_from_options (options : Cli.CLIOptions) :
  RouteFactory.authMiddleware (RouteFactory.routeTemplate (context options))
  = (if needsAuth (context options)
     then [RouteFactory.requireAuth] else [])
    ++ JS.cond_str (Cli.roles options)
         (fun r => [RouteFactory.requireRole (JS.split JS.comma r)])
         [].
Proof.
  unfold RouteFactory.authMiddleware, RouteFactory.routeTemplate.
  cbv [RouteFactory.middleware RouteFactory.auth RouteFactory.role].
  change (hasMiddleware (context options))
    with (needsAuth (context options)
          || JS.defined (Scaffold.roles (context options))).
  change (Scaffold.roles (context options))
    with (JS.cond_str (Cli.roles options)
            (fun r => Some (JS.split JS.comma r)) None).
  unfold JS.cond_str.
  destruct (needsAuth (context options));
    destruct (Cli.roles options) as [r|]; try reflexivity;
    destruct (negb (r =? EmptyString)%string); try reflexivity;
    cbn; destruct (JS.split JS.comma r) eqn:E; try reflexivity;
    now apply split_nonempty in E.
Qed.

(** Listing [create] as a public route removes [requireAuth] from
    every route of the generated file, update and delete included,
    whatever the auth type is. *)
Theorem public_create_unguards_every_route (options : Cli.CLIOptions)
  (k : RouteFactory.RouteKind)
  (Hcreate : In "create" (JS.or_array (Cli.publicRoutes options) [])) :
  needsAuth (context options) = false
  /\ ~ In RouteFactory.requireAuth
         (RouteFactory.middlewareChain (plan options k))
  /\ forall j chain,
       In (j, chain)
         (RouteFactory.createCrudRoutes
            (RouteFactory.routeTemplate (context options))) ->
       ~ In RouteFactory.requireAuth chain.
Proof.
  assert (Hn : needsAuth (context options) = false).
  { rewrite needsAuth_spec. apply includes_In in Hcreate.
    now rewrite Hcreate. }
  assert (Hchain : forall j,
            ~ In RouteFactory.requireAuth
                (RouteFactory.middlewareChain (plan options j))).
  { intros j. rewrite plan_chain, authMiddleware_from_options, Hn.
    intros Hin. apply in_app_or in Hin. destruct Hin as [Hin|Hin].
    - destruct (RouteFactory.public (plan options j)); [contradiction|].
      unfold JS.cond_str in Hin.
      destruct (Cli.roles options) as [r|]; [|contradiction].
      destruct (negb (r =? EmptyString)%string); [|contradiction].
      destruct Hin as [H|[]]. discriminate.
    - destruct (RouteFactory.acceptsBody j); [|contradiction].
      destruct Hin as [H|[]]. discriminate. }
  split; [exact Hn|]. split; [apply Hchain|].
  intros j chain Hin. unfold RouteFactory.createCrudRoutes in Hin.
  apply in_flat_map in Hin. destruct Hin as [j' [_ Hin]].
  destruct (RouteFactory.emitted _); [|contradiction].
  destruct Hin as [Hin|[]]. injection Hin as <- <-. apply Hchain.
Qed.

(** Every file is written after the generated files it imports, for
    every combination of the admin, test and migration flags. *)
Theorem imports_are_written_first (options : Cli.CLIOptions) :
  Deps.importsWritten [] (map Render.name (files options)) = true.
Proof.
  rewrite generate_names.
  destruct (Cli.withAdmin options), (Cli.withTests options),
    (Cli.skipMigration options); reflexivity.
Qed.

End ContextFacts.

Lemma lower_upper_lower (c : ascii) :
  JS.lower_ascii (JS.upper_ascii (JS.lower_ascii c)) = JS.lower_ascii c.
Proof. each_char c. Qed.

Lemma lower_lower (c : ascii) :
  JS.lower_ascii (JS.lower_ascii c) = JS.lower_ascii c.
Proof. each_char c. Qed.

Lemma toLowerCase_idempotent (s : string) :
  JS.toLowerCase (JS.toLowerCase s) = JS.toLowerCase s.
Proof.
  induction s as [|c s IH]; simpl; [reflexivity|].
  now rewrite lower_lower, IH.
Qed.

(** The class name and the file name of an entity differ by case
    only: lower-casing [EntityName] gives [entityName], and
    [entityName] is already lower case. *)
Theorem entity_names_agree (pluralize toSnakeCase : string -> string)
  (options : Cli.CLIOptions) :
  JS.toLowerCase (EntityName (buildContext pluralize toSnakeCase options))
  = entityName (buildContext pluralize toSnakeCase options)
  /\ JS.toLowerCase (entityName (buildContext pluralize toSnakeCase options))
     = entityName (buildContext pluralize toSnakeCase options).
Proof.
  change (EntityName (buildContext pluralize toSnakeCase options))
    with (JS.capitalize (JS.toLowerCase (Cli.entityName options))).
  change (entityName (buildContext pluralize toSnakeCase options))
    with (JS.toLowerCase (Cli.entityName options)).
  split; [|apply toLowerCase_idempotent].
  destruct (Cli.entityName options) as [|c s]; [reflexivity|].
  simpl. now rewrite lower_upper_lower, toLowerCase_idempotent.
Qed.

(* ================================================================== *)
(** * Comma-separated options *)
(* ================================================================== *)

Lemma join_cons (x : string) (l : list string) :
  l <> [] -> Csv.join (x :: l) = (x ++ "," ++ Csv.join l)%string.
Proof. destruct l; [now intros H | reflexivity]. Qed.

Lemma split_join (s : string) : Csv.join (JS.split JS.comma s) = s.
Proof.
  induction s as [|c s IH]; [reflexivity|]. simpl.
  destruct (Ascii.eqb c JS.comma) eqn:E.
  - rewrite join_cons by apply split_nonempty.
    apply Ascii.eqb_eq in E. subst c. simpl. now rewrite IH.
  - pose proof (split_nonempty JS.comma s) as Hne.
    destruct (JS.split JS.comma s) as [|h t]; [contradiction|].
    destruct t as [|h' t'].
    + unfold Csv.join in *. simpl in *. congruence.
    + rewrite join_cons by discriminate.
      rewrite join_cons in IH by discriminate.
      cbn [append] in IH |- *. now rewrite IH.
Qed.

Lemma split_comma_free (s : string) :
  Forall (fun x => Csv.comma_free x = true) (JS.split JS.comma s).
Proof.
  induction s as [|c s IH]; simpl; [now repeat constructor|].
  destruct (Ascii.eqb c JS.comma) eqn:E.
  - now constructor.
  - destruct (JS.split JS.comma s) as [|h t];
      [repeat constructor; simpl; now rewrite E|].
    inversion IH as [|? ? Hh Ht]; subst.
    constructor; [|assumption]. simpl. now rewrite E, Hh.
Qed.

(** The roles of a context are the pieces of the [roles] option
    between its commas: there is at least one, none contains a
    comma, and joined with commas they give the option back.  The
    same holds of the hooks. *)
Theorem roles_split_round_trip (pluralize toSnakeCase : string -> string)
  (options : Cli.CLIOptions) (r : string)
  (Hroles : Cli.roles options = Some r)
  (Hne : r <> EmptyString) :
  exists l,
    Scaffold.roles (buildContext pluralize toSnakeCase options) = Some l
    /\ l <> []
    /\ Forall (fun x => Csv.comma_free x = true) l
    /\ Csv.join l = r
    /\ (forall h, Cli.hooks options = Some h -> h <> EmptyString ->
          Csv.join (hooks (buildContext pluralize toSnakeCase options)) = h).
Proof.
  exists (JS.split JS.comma r).
  split; [|split; [|split; [|split]]].
  - change (JS.cond_str (Cli.roles options)
              (fun x => Some (JS.split JS.comma x)) None
            = Some (JS.split JS.comma r)).
    rewrite Hroles. simpl. apply String.eqb_neq in Hne. now rewrite Hne.
  - apply split_nonempty.
  - apply split_comma_free.
  - apply split_join.
  - intros h Hh Hhne.
    change (Csv.join (JS.cond_str (Cli.hooks options)
                        (fun x => JS.split JS.comma x) []) = h).
    rewrite Hh. simpl. apply String.eqb_neq in Hhne. rewrite Hhne.
    apply split_join.
Qed.

(* ================================================================== *)
(** * Instances *)
(* ================================================================== *)

Import MoreSamples.

Lemma testHooks_beforeDelete_quiet :
  forall b (t : list ServiceSamples.Row),
    Service.hook_beforeDelete testHooks = Some b -> b 2%Z t = (inr tt, t).
Proof. intros b t H. injection H as <-. reflexivity. Qed.

Lemma testHooks_afterDelete_quiet :
  forall a (t : list ServiceSamples.Row),
    Service.hook_afterDelete testHooks = Some a -> a 2%Z t = (inr tt, t).
Proof. intros a t H. injection H as <-. reflexivity. Qed.

Lemma delete_then_record_is_gone_witness :
  ((forall b t, Service.hook_beforeDelete testHooks = Some b ->
                b 2%Z t = (inr tt, t))
   /\ (forall a t, Service.hook_afterDelete testHooks = Some a ->
                   a 2%Z t = (inr tt, t))
   /\ Service.delete testHooks 2 (world three [])
      = Service.Returned true
          (world [entity 1 "Entity 1"; entity 3 "Entity 3"]
             [Service.beforeDelete; Service.afterDelete]))
  /\ Crud.getById 2
       (world [entity 1 "Entity 1"; entity 3 "Entity 3"]
          [Service.beforeDelete; Service.afterDelete])
     = Service.Returned None
         (world [entity 1 "Entity 1"; entity 3 "Entity 3"]
            [Service.beforeDelete; Service.afterDelete]).
Proof.
  split;
    [split; [exact testHooks_beforeDelete_quiet
            | split; [exact testHooks_afterDelete_quiet | reflexivity]]|].
  exact (proj1 (@delete_then_record_is_gone string string testHooks 2
                  (world three [])
                  (world [entity 1 "Entity 1"; entity 3 "Entity 3"]
                     [Service.beforeDelete; Service.afterDelete])
                  true
                  testHooks_beforeDelete_quiet testHooks_afterDelete_quiet
                  eq_refl)).
Defined.

Lemma delete_keeps_other_records_witness :
  ((forall b t, Service.hook_beforeDelete testHooks = Some b ->
                b 2%Z t = (inr tt, t))
   /\ (forall a t, Service.hook_afterDelete testHooks = Some a ->
                   a 2%Z t = (inr tt, t))
   /\ Service.delete testHooks 2 (world three [])
      = Service.Returned true
          (world [entity 1 "Entity 1"; entity 3 "Entity 3"]
             [Service.beforeDelete; Service.afterDelete]))
  /\ Crud.getAll
       (world [entity 1 "Entity 1"; entity 3 "Entity 3"]
          [Service.beforeDelete; Service.afterDelete])
     = Service.Returned
         (filter (fun r => negb (Service.hasId 2 r))
            (Service.table (world three [])))
         (world [entity 1 "Entity 1"; entity 3 "Entity 3"]
            [Service.beforeDelete; Service.afterDelete]).
Proof.
  split;
    [split; [exact testHooks_beforeDelete_quiet
            | split; [exact testHooks_afterDelete_quiet | reflexivity]]|].
  exact (proj1 (@delete_keeps_other_records string string testHooks 2
                  (world three [])
                  (world [entity 1 "Entity 1"; entity 3 "Entity 3"]
                     [Service.beforeDelete; Service.afterDelete])
                  true
                  testHooks_beforeDelete_quiet testHooks_afterDelete_quiet
                  eq_refl)).
Defined.

Lemma update_then_getById_witness :
  (Service.update_before updateHooks 2 "Updated" (world three [])
   = Service.Returned "Updated" (world three [Service.beforeUpdate])
   /\ noId "Updated" = None
   /\ Service.hook_afterUpdate updateHooks = None
   /\ Crud.getById 2 (world three [Service.beforeUpdate])
      = Service.Returned (Some (entity 2 "Entity 2"))
          (world three [Service.beforeUpdate]))
  /\ exists w2,
       Service.update setName noId updateHooks 2 "Updated" (world three [])
       = Service.Returned
           (Some {| Service.id := 2; Service.columns := "Updated";
                    Service.updatedAt := 7 |})
           w2.
Proof.
  split; [repeat split|].
  destruct (@update_then_getById string string setName noId updateHooks 2
              "Updated" "Updated" (world three [])
              (world three [Service.beforeUpdate]) (entity 2 "Entity 2")
              eq_refl eq_refl eq_refl eq_refl) as [w2 [Hu _]].
  exists w2. exact Hu.
Defined.

Lemma update_keeps_other_records_witness :
  (Service.update_before testHooks 2 "Updated" (world three [])
   = Service.Returned "Updated" (world three [Service.beforeUpdate])
   /\ noId "Updated" = None
   /\ (forall a r (t : list ServiceSamples.Row),
         Service.hook_afterUpdate testHooks = Some a -> snd (a r t) = t)
   /\ Service.update setName noId testHooks 2 "Updated" (world three [])
      = Service.Returned
          (Some {| Service.id := 2; Service.columns := "Updated";
                   Service.updatedAt := 7 |})
          (world [entity 1 "Entity 1";
                  entity 3 "Entity 3";
                  {| Service.id := 2; Service.columns := "Updated";
                     Service.updatedAt := 7 |}]
             [Service.beforeUpdate; Service.afterUpdate]))
  /\ filter (fun r => negb (Service.hasId 2 r))
       (Service.table
          (world [entity 1 "Entity 1";
                  entity 3 "Entity 3";
                  {| Service.id := 2; Service.columns := "Updated";
                     Service.updatedAt := 7 |}]
             [Service.beforeUpdate; Service.afterUpdate]))
     = filter (fun r => negb (Service.hasId 2 r))
         (Service.table (world three [Service.beforeUpdate])).
Proof.
  assert (Hquiet : forall a r (t : list ServiceSamples.Row),
             Service.hook_afterUpdate testHooks = Some a -> snd (a r t) = t).
  { intros a r t H. injection H as <-. reflexivity. }
  split;
    [split; [reflexivity
            | split; [reflexivity | split; [exact Hquiet | reflexivity]]]|].
  exact (proj1 (@update_keeps_other_records string string setName noId
                  testHooks 2
                  "Updated" "Updated" (world three [])
                  (world three [Service.beforeUpdate]) _ _
                  eq_refl eq_refl Hquiet eq_refl)).
Defined.

Lemma create_then_getById_witness :
  (Crud.create_before createHooks "Entity 4" (world three [])
   = Service.Returned "Entity 4" (world three [Service.beforeCreate])
   /\ insertName "Entity 4" (Service.table (world three [Service.beforeCreate]))
      = inr "Entity 4"
   /\ Crud.hook_afterCreate createHooks = None
   /\ existsb (Service.hasId 4)
        (Service.table (world three [Service.beforeCreate])) = false)
  /\ exists w2,
       Crud.create insertName createHooks 4 "Entity 4" (world three [])
       = Service.Returned
           {| Service.id := 4; Service.columns := "Entity 4";
              Service.updatedAt := 7 |}
           w2.
Proof.
  split; [repeat split|].
  destruct (@create_then_getById string string insertName createHooks 4
              "Entity 4" "Entity 4" (world three [])
              (world three [Service.beforeCreate]) "Entity 4"
              eq_refl eq_refl eq_refl eq_refl) as [w2 [Hc _]].
  exists w2. exact Hc.
Defined.

Lemma create_failure_inserts_nothing_witness :
  (Crud.hook_beforeCreate refusingHooks
   = Some (fun _ t => (inl "refused", t))
   /\ (fun (_ : string) (t : list ServiceSamples.Row) =>
         (@inl string string "refused", t))
        "Entity 4" (Service.table (world three []))
      = (inl "refused", three))
  /\ Crud.create insertName refusingHooks 4 "Entity 4" (world three [])
     = Service.Thrown "refused" (world three [Service.beforeCreate]).
Proof.
  split; [split; reflexivity|].
  exact (proj1 (@create_failure_inserts_nothing string string insertName
                  refusingHooks 4 "Entity 4" (world three []))
           _ "refused" three eq_refl eq_refl).
Defined.

Example slugFor_examples :
  Articles.slugFor (draft "Hello World") = "hello-world"
  /\ Articles.slugFor
       {| Articles.title := "Hello World"; Articles.slug := Some "custom";
          Articles.isPublished := None; Articles.rest := tt |} = "custom"
  /\ Articles.slugFor
       {| Articles.title := "Hello World";
          Articles.slug := Some EmptyString;
          Articles.isPublished := None; Articles.rest := tt |}
     = "hello-world".
Proof. repeat split. Qed.

Lemma createArticle_rejects_duplicate_slug_witness :
  In (Articles.slugFor (draft "Hello  World!")) (Articles.slugs blog)
  /\ Articles.createArticle 2 (draft "Hello  World!") 6 blog
     = Service.Thrown (Articles.slugExists "hello-world")
         {| Service.table := [helloWorld];
            Service.calls := [Service.beforeCreate];
            Service.now := 7 |}.
Proof.
  assert (Hdup : In (Articles.slugFor (draft "Hello  World!"))
                   (Articles.slugs blog)) by (now left).
  split; [exact Hdup|].
  exact (@createArticle_rejects_duplicate_slug unit 2
           (draft "Hello  World!") 6 blog Hdup).
Defined.

Lemma second_post_is_new :
  ~ In (Articles.slugFor (draft "Second post")) (Articles.slugs blog).
Proof. intros [H|[]]. discriminate. Qed.

Lemma createArticle_stores_slug_and_author_witness :
  ~ In (Articles.slugFor (draft "Second post")) (Articles.slugs blog)
  /\ exists created w2,
       Articles.createArticle 2 (draft "Second post") 6 blog
       = Service.Returned
           {| Articles.article := created; Articles.authorName := None |} w2
       /\ Service.table w2 = Service.table blog ++ [created].
Proof.
  split; [exact second_post_is_new|].
  destruct (@createArticle_stores_slug_and_author unit 2
              (draft "Second post") 6 blog second_post_is_new)
    as [created [w2 [Hc [Ht _]]]].
  exists created, w2. split; assumption.
Defined.

Lemma blog_slugs_unique : NoDup (Articles.slugs blog).
Proof. repeat constructor. intros []. Qed.

Lemma createArticle_keeps_slugs_unique_witness :
  NoDup (Articles.slugs blog)
  /\ NoDup
       (Articles.slugs
          match Articles.createArticle 2 (draft "Second post") 6 blog with
          | Service.Returned _ w2 => w2
          | Service.Thrown _ w2 => w2
          end).
Proof.
  split; [exact blog_slugs_unique|].
  exact (@createArticle_keeps_slugs_unique unit 2 (draft "Second post") 6
           blog blog_slugs_unique).
Defined.

Lemma controllerCreate_author_is_caller_witness :
  ~ In (Articles.slugFor (draft "Second post")) (Articles.slugs blog)
  /\ Articles.controllerCreate 2 None (draft "Second post") blog
     = Service.Thrown Articles.notAuthenticated blog.
Proof.
  split; [exact second_post_is_new|].
  exact (proj1 (@controllerCreate_author_is_caller unit 2 ada
                  (draft "Second post") blog second_post_is_new)).
Defined.

Lemma new_article_is_a_draft_witness :
  (Articles.isPublished (draft "Second post") = None
   /\ ~ In (Articles.slugFor (draft "Second post")) (Articles.slugs blog)
   /\ existsb (Service.hasId 2) (Service.table blog) = false)
  /\ exists answer w2 listed,
       Articles.controllerCreate 2 (Some ada) (draft "Second post") blog
       = Service.Returned answer w2
       /\ Articles.getAll usernames blog = Service.Returned listed blog
       /\ Articles.getAll usernames w2 = Service.Returned listed w2.
Proof.
  split; [split; [reflexivity | split; [exact second_post_is_new
                                       | reflexivity]]|].
  destruct (@new_article_is_a_draft unit usernames 2 ada
              (draft "Second post") blog eq_refl second_post_is_new eq_refl)
    as [answer [w2 [listed [Hc [Hl [Hl2 _]]]]]].
  exists answer, w2, listed. repeat split; assumption.
Defined.

Example draft_is_readable_by_id :
  exists w2 answer,
    Articles.controllerCreate 2 (Some ada) (draft "Second post") blog
    = Service.Returned answer w2
    /\ Http.status answer = 201%Z
    /\ Articles.getAll usernames w2
       = Service.Returned
           [{| Articles.article := helloWorld;
               Articles.authorName := Some "ada" |}] w2
    /\ option_map
         (fun a => Articles.col_slug (Service.columns (Articles.article a)))
         match Articles.getById usernames 2 w2 with
         | Service.Returned found _ => found
         | Service.Thrown _ _ => None
         end
       = Some "second-post".
Proof. eexists. eexists. repeat split. Qed.

Lemma userDelete_404_iff_missing_witness :
  exists answer w2,
    Users.delete hash 6 accounts = Service.Returned answer w2
    /\ (Http.status answer = 404%Z
        <-> ~ exists r, In r (Service.table accounts) /\ Service.id r = 6%Z).
Proof.
  destruct (@userDelete_404_iff_missing hash 6 accounts)
    as [answer [w2 [Hd [H404 _]]]].
  exists answer, w2. split; assumption.
Defined.

Lemma userUpdate_stored_password_witness :
  (Users.p_id (body None (Some "s3cret")) = None
   /\ Crud.getById 5 accounts = Service.Returned (Some adaRow) accounts)
  /\ exists stored w2,
       Users.update hash 5 (body None (Some "s3cret")) accounts
       = Service.Returned
           (Http.json
              (Http.success stored (Some "User updated successfully")) None)
           w2
       /\ Users.col_password (Service.columns stored) = "hashed:s3cret".
Proof.
  split; [split; reflexivity|].
  destruct (@userUpdate_stored_password hash 5 (body None (Some "s3cret"))
              accounts adaRow eq_refl eq_refl)
    as [stored [w2 [Hu [_ [_ Hp]]]]].
  exists stored, w2. split; [exact Hu | exact Hp].
Defined.

(** A body without password keeps the stored one; an unknown id
    answers 404; a body with an [id] key gives the user that id. *)
Example userUpdate_examples :
  (forall stored w2,
      Users.update hash 5 (body None None) accounts
      = Service.Returned
          (Http.json (Http.success stored (Some "User updated successfully"))
             None) w2 ->
      Users.col_password (Service.columns stored) = "hashed:old")
  /\ Http.status
       match Users.update hash 6 (body None (Some "s3cret")) accounts with
       | Service.Returned answer _ => answer
       | Service.Thrown _ _ => Http.json (Http.error EmptyString) None
       end = 404%Z
  /\ (forall stored w2,
        Users.update hash 5 (rekey 77) accounts
        = Service.Returned
            (Http.json
               (Http.success stored (Some "User updated successfully"))
               None) w2 ->
        Service.id stored = 77%Z).
Proof.
  split; [|split; [reflexivity|]].
  - intros stored w2 H. vm_compute in H. injection H as <- _. reflexivity.
  - intros stored w2 H. vm_compute in H. injection H as <- _. reflexivity.
Qed.


Example userCreate_stores_hash :
  exists created w2,
    Users.create hash insertUser 6
      (body (Some "eve@example.org") (Some "s3cret")) accounts
    = Service.Returned
        (Http.json (Http.success created (Some "User created successfully"))
           (Some 201%Z)) w2
    /\ Users.col_password (Service.columns created) = "hashed:s3cret"
    /\ Users.col_role (Service.columns created) = "user".
Proof. eexists. eexists. repeat split. Qed.

Lemma context_ownershipField_consistent_witness :
  Scaffold.ownershipCheck (Samples.context_of Samples.emptyOwnershipField)
  = true
  /\ JS.defined (ownershipField (Samples.context_of Samples.emptyOwnershipField))
     = true.
Proof.
  split; [reflexivity|].
  exact (proj2 (proj2 (proj2 (proj2 (proj2
           (@context_ownershipField_consistent Naming.pluralize
              Naming.toSnakeCase Samples.emptyOwnershipField)))))
           eq_refl).
Defined.

Lemma public_create_unguards_every_route_witness :
  In "create" (JS.or_array (Cli.publicRoutes publicCreateWithRoles) [])
  /\ ~ In RouteFactory.requireAuth
         (RouteFactory.middlewareChain
            (routePlan Naming.pluralize Naming.toSnakeCase
               publicCreateWithRoles RouteFactory.delete)).
Proof.
  assert (H : In "create"
                (JS.or_array (Cli.publicRoutes publicCreateWithRoles) []))
    by (now left).
  split; [exact H|].
  exact (proj1 (proj2 (@public_create_unguards_every_route Naming.pluralize
                         Naming.toSnakeCase publicCreateWithRoles
                         RouteFactory.delete H))).
Defined.

Lemma roles_split_round_trip_witness :
  (Cli.roles publicCreateWithRoles = Some "admin,superadmin"
   /\ "admin,superadmin" <> EmptyString)
  /\ exists l,
       Scaffold.roles (Samples.context_of publicCreateWithRoles) = Some l
       /\ Csv.join l = "admin,superadmin".
Proof.
  assert (Hne : "admin,superadmin" <> EmptyString) by discriminate.
  split; [split; [reflexivity | exact Hne]|].
  destruct (@roles_split_round_trip Naming.pluralize Naming.toSnakeCase
              publicCreateWithRoles "admin,superadmin" eq_refl Hne)
    as [l [Hl [_ [_ [Hj _]]]]].
  exists l. split; [exact Hl | exact Hj].
Defined.
